(** * The agents.md parser and the Cursor / Kiro converters of the prompt
      package manager, embedded in Rocq.

    Sources embedded here:
    - [from-agents-md.ts]  : [fromAgentsMd], [parseFrontmatter],
      [extractDescription], [parseMarkdown], [buildSection],
      [inferSectionType], [inferTags];
    - [to-cursor.ts]       : [toCursor], [generateMDCHeader], [convertContent],
      [convertSection] and the per-section renderers;
    - [to-kiro.ts]         : only its test-suite is available, the fail-fast
      configuration check is modelled from the specification.

    JavaScript strings are sequences of UTF-16 code units, and that is how they
    are represented: [jsstring := list N]. *)

From Stdlib Require Import List NArith ZArith Bool String Ascii Lia Arith.
From Stdlib Require Import DecimalString.
Import ListNotations.

(* ================================================================== *)
(** * JavaScript strings                                                *)
(* ================================================================== *)

Module JS.

Local Open Scope N_scope.

Definition jsstring := list N.

(** ** Literals: a Rocq string holds UTF-8 bytes, a JS string UTF-16 units. *)

Definition cont (b : N) : N := N.land b 63.

Definition units_of_codepoint (cp : N) : list N :=
  if cp <? 65536 then [cp]
  else let v := cp - 65536 in
       [55296 + N.shiftr v 10; 56320 + N.land v 1023].

Fixpoint utf16_of_utf8 (bs : list N) : list N :=
  match bs with
  | [] => []
  | b0 :: r0 =>
    if b0 <? 128 then b0 :: utf16_of_utf8 r0
    else
      match r0 with
      | [] => [65533]
      | b1 :: r1 =>
        if b0 <? 224 then
          units_of_codepoint (N.shiftl (N.land b0 31) 6 + cont b1)
            ++ utf16_of_utf8 r1
        else
          match r1 with
          | [] => [65533]
          | b2 :: r2 =>
            if b0 <? 240 then
              units_of_codepoint
                (N.shiftl (N.land b0 15) 12 + N.shiftl (cont b1) 6 + cont b2)
                ++ utf16_of_utf8 r2
            else
              match r2 with
              | [] => [65533]
              | b3 :: r3 =>
                units_of_codepoint
                  (N.shiftl (N.land b0 7) 18 + N.shiftl (cont b1) 12
                   + N.shiftl (cont b2) 6 + cont b3)
                  ++ utf16_of_utf8 r3
              end
          end
      end
  end.

Definition lit (s : string) : jsstring :=
  utf16_of_utf8 (map N_of_ascii (list_ascii_of_string s)).

(** The line feed, ['\n']. *)
Definition LF : N := 10.
Definition nl : jsstring := [LF].

(** ** Character classes *)

(** [WhiteSpace] and [LineTerminator] of ECMAScript: what [trim] removes and
    what [\s] matches. *)
Definition isWhiteSpace (c : N) : bool :=
  ((9 <=? c) && (c <=? 13))
  || (c =? 32) || (c =? 160) || (c =? 5760)
  || ((8192 <=? c) && (c <=? 8202))
  || (c =? 8232) || (c =? 8233) || (c =? 8239) || (c =? 8287)
  || (c =? 12288) || (c =? 65279).

(** [\d] *)
Definition isDigit (c : N) : bool := (48 <=? c) && (c <=? 57).

Definition isAsciiUpper (c : N) : bool := (65 <=? c) && (c <=? 90).

(** Lower-casing of one code unit.  ASCII and Latin-1 letters are shifted;
    U+0130 and U+212A are the only units outside ASCII whose lower case
    contains an ASCII letter ("i" + U+0307, and "k").  Every other unit
    outside ASCII lower-cases to units outside ASCII; the programs below only
    search the lower-cased text for ASCII words, so these are left in
    place. *)
Definition lowerUnit (c : N) : list N :=
  if isAsciiUpper c then [c + 32]
  else if (192 <=? c) && (c <=? 222) && negb (c =? 215) then [c + 32]
  else if c =? 304 then [105; 775]
  else if c =? 8490 then [107]
  else [c].

(** ** String methods (receiver first) *)

Definition toLowerCase (s : jsstring) : jsstring := flat_map lowerUnit s.

Fixpoint startsWith (s prefix : jsstring) : bool :=
  match prefix, s with
  | [], _ => true
  | _ :: _, [] => false
  | p :: prefix', c :: s' => (c =? p) && startsWith s' prefix'
  end.

Fixpoint includes (s needle : jsstring) : bool :=
  startsWith s needle
  || match s with
     | [] => false
     | _ :: s' => includes s' needle
     end.

(** [s.substring(n)] *)
Definition substring (s : jsstring) (n : nat) : jsstring := skipn n s.

(** [s.substring(0, n)] *)
Definition substring0 (s : jsstring) (n : nat) : jsstring := firstn n s.

Fixpoint trimStart (s : jsstring) : jsstring :=
  match s with
  | [] => []
  | c :: s' => if isWhiteSpace c then trimStart s' else s
  end.

Definition trimEnd (s : jsstring) : jsstring := rev (trimStart (rev s)).

Definition trim (s : jsstring) : jsstring := trimEnd (trimStart s).

(** [s.split('\n')] *)
Fixpoint split_lines (s : jsstring) : list jsstring :=
  match s with
  | [] => [[]]
  | c :: s' =>
    if c =? LF then [] :: split_lines s'
    else match split_lines s' with
         | [] => [[c]]
         | l :: ls => (c :: l) :: ls
         end
  end.

(** [parts.join(sep)] *)
Fixpoint join (sep : jsstring) (parts : list jsstring) : jsstring :=
  match parts with
  | [] => []
  | [p] => p
  | p :: ps => p ++ sep ++ join sep ps
  end.

(** Truthiness of a string: the empty string is falsy. *)
Definition truthy (s : jsstring) : bool :=
  match s with [] => false | _ => true end.

(** Truthiness of an optional string ([undefined] is falsy). *)
Definition truthy_opt (o : option jsstring) : bool :=
  match o with Some s => truthy s | None => false end.

(** [a || b] on optional strings. *)
Definition or_else (a : option jsstring) (b : jsstring) : jsstring :=
  match a with
  | Some s => if truthy s then s else b
  | None => b
  end.

(** First occurrence of [sep] in [s]: the text before it and the text after. *)
Fixpoint cut (s sep : jsstring) : option (jsstring * jsstring) :=
  if startsWith s sep then Some ([], skipn (List.length sep) s)
  else match s with
       | [] => None
       | c :: s' =>
         match cut s' sep with
         | Some (a, b) => Some (c :: a, b)
         | None => None
         end
       end.

(** ASCII case-insensitive prefix test, as the [i] flag of a regular
    expression without the [u] flag compares an ASCII pattern. *)
Definition foldAscii (c : N) : N := if isAsciiUpper c then c + 32 else c.

Fixpoint startsWithCI (s prefix : jsstring) : bool :=
  match prefix, s with
  | [], _ => true
  | _ :: _, [] => false
  | p :: prefix', c :: s' =>
      (foldAscii c =? foldAscii p) && startsWithCI s' prefix'
  end.

(** Decimal rendering of a number, [String(n)]. *)
Definition ofNat (n : nat) : jsstring :=
  lit (NilEmpty.string_of_uint (Nat.to_uint n)).

(** Split off the longest prefix whose units satisfy [p]. *)
Fixpoint span (p : N -> bool) (s : jsstring) : jsstring * jsstring :=
  match s with
  | [] => ([], [])
  | c :: s' =>
    if p c then let (a, b) := span p s' in (c :: a, b)
    else ([], s)
  end.

End JS.

Import JS.

(* ================================================================== *)
(** * Exceptions                                                        *)
(* ================================================================== *)

Module Exn.

(** The places of the embedded code where the engine raises a [TypeError]
    because a property is read from, or a method called on, [undefined]. *)
Inductive FaultSite : Type :=
| ParsedItemsUndefined      (* [currentSection.items!] in parseMarkdown *)
| ParsedExamplesUndefined   (* [currentSection.examples!] in parseMarkdown *)
| MetadataDataUndefined     (* destructuring [section.data] in convertMetadata *)
| PersonaDataUndefined      (* destructuring [section.data] in convertPersona *)
| RulesItemsUndefined       (* [section.items.forEach] in convertRules *)
| ExamplesListUndefined.    (* [section.examples.forEach] in convertExamples *)

Inductive JsError : Type :=
| TypeError (site : FaultSite).

(** A computation that returns a value or raises. *)
Definition t (A : Type) : Type := (JsError + A)%type.

Definition ret {A} (a : A) : t A := inr a.
Definition throw {A} (e : JsError) : t A := inl e.
Definition bind {A B} (m : t A) (k : A -> t B) : t B :=
  match m with
  | inl e => inl e
  | inr a => k a
  end.

End Exn.

Notation "x <- m ;; k" := (Exn.bind m (fun x => k))
  (at level 61, m at next level, right associativity).

(* ================================================================== *)
(** * The canonical content model ([types/canonical.ts], as the two
      programs use it)                                                  *)
(* ================================================================== *)

Module Canonical.

Record Rule : Type := mkRule {
  rule_content   : jsstring;
  rule_rationale : option jsstring;
  rule_examples  : option (list jsstring)
}.

Record Example : Type := mkExample {
  ex_description : jsstring;
  ex_code        : jsstring;
  ex_language    : option jsstring;
  ex_good        : option bool
}.

(** [data: Record<string, unknown>] of a metadata section, seen through the
    keys that are read: a key is [Some s] when it holds the string [s] and
    [None] when it is absent or holds something that is not a string. *)
Record MetadataData : Type := mkMetadataData {
  md_title       : option jsstring;
  md_description : option jsstring;
  md_icon        : option jsstring
}.

Record PersonaData : Type := mkPersonaData {
  pd_name      : option jsstring;
  pd_role      : option jsstring;
  pd_icon      : option jsstring;
  pd_style     : option (list jsstring);
  pd_expertise : option (list jsstring)
}.

(** A section as it exists at run time.  A field is optional where the type
    declaration makes it optional, and also where a value of unexpected shape
    can lack it ([data], [items], [examples]): these are the fields whose
    absence makes a converter raise. *)
Inductive Section : Type :=
| MetadataSection (data : option MetadataData)
| InstructionsSection (title content : jsstring) (priority : option jsstring)
| RulesSection (title : jsstring) (items : option (list Rule))
               (ordered : option bool)
| ExamplesSection (title : jsstring) (examples : option (list Example))
| PersonaSection (data : option PersonaData)
| ContextSection (title content : jsstring)
| ToolsSection (tools : list jsstring)
| CustomSection (editorType : option jsstring) (content : jsstring)
| OtherSection (type : jsstring).

Record CanonicalContent : Type := mkContent {
  cc_format   : jsstring;
  cc_version  : jsstring;
  cc_sections : list Section
}.

Record AgentsMdConfig : Type := mkAgentsMdConfig {
  amc_project : option jsstring;
  amc_scope   : option jsstring
}.

(** [pkg.metadata], with the keys the parser writes and the converter
    reads. *)
Record PackageInfo : Type := mkPackageInfo {
  pi_title          : option jsstring;
  pi_description    : option jsstring;
  pi_version        : option jsstring;
  pi_globs          : option (list jsstring);
  pi_alwaysApply    : option bool;
  pi_agentsMdConfig : option AgentsMdConfig
}.

Record CanonicalPackage : Type := mkPackage {
  pkg_id           : jsstring;
  pkg_version      : jsstring;
  pkg_name         : jsstring;
  pkg_description  : jsstring;
  pkg_author       : jsstring;
  pkg_tags         : list jsstring;
  pkg_content      : CanonicalContent;
  pkg_sourceFormat : jsstring;
  pkg_metadata     : option PackageInfo;
  pkg_format       : option jsstring;
  pkg_subtype      : option jsstring
}.

Record ConversionResult : Type := mkResult {
  res_content         : jsstring;
  res_format          : jsstring;
  res_warnings        : option (list jsstring);
  res_lossyConversion : bool;
  res_qualityScore    : Z
}.

End Canonical.

Import Canonical.

(* ================================================================== *)
(** * The agents.md parser ([from-agents-md.ts])                        *)
(* ================================================================== *)

Module FromAgentsMd.

Import Exn.

Record PackageMetadata : Type := mkPackageMetadata {
  pm_id          : jsstring;
  pm_name        : jsstring;
  pm_description : option jsstring;
  pm_author      : option jsstring;
  pm_tags        : option (list jsstring);
  pm_version     : option jsstring
}.

(** ** The regular expressions of the parser *)

(** [line.match(/^\d+\.\s/)] *)
Definition matchOrdinal (line : jsstring) : bool :=
  match span isDigit line with
  | (_ :: _, dot :: ws :: _) => (dot =? 46)%N && isWhiteSpace ws
  | _ => false
  end.

(** [line.replace(/^[-\d.]\s+/, '')]: one unit among ["-"], a digit and
    ["."], then white space. *)
Definition stripListMarker (line : jsstring) : jsstring :=
  match line with
  | c :: ((w :: _) as rest) =>
    if ((c =? 45)%N || isDigit c || (c =? 46)%N) && isWhiteSpace w
    then trimStart rest
    else line
  | _ => line
  end.

(** [description.replace(/^[✅❌]\s*/, '')] *)
Definition stripPolarityIcon (description : jsstring) : jsstring :=
  match description with
  | c :: rest =>
    if (c =? 9989)%N || (c =? 10060)%N then trimStart rest else description
  | [] => description
  end.

(** [s.replace(/^(Preferred|Avoid|Do|Don't):\s*/i, '')]: the alternatives are
    tried in this order, each followed by [":"]. *)
Definition stripPolarityLabel (s : jsstring) : jsstring :=
  let try_label (label : jsstring) : option jsstring :=
    if startsWithCI s (label ++ lit ":")
    then Some (trimStart (skipn (List.length label + 1) s))
    else None in
  match try_label (lit "Preferred") with
  | Some r => r
  | None =>
    match try_label (lit "Avoid") with
    | Some r => r
    | None =>
      match try_label (lit "Do") with
      | Some r => r
      | None =>
        match try_label (lit "Don't") with
        | Some r => r
        | None => s
        end
      end
    end
  end.

(** [subContent.replace(/^(Rationale|Why):\s*/, '')] *)
Definition stripRationaleLabel (s : jsstring) : jsstring :=
  if startsWith s (lit "Rationale:") then trimStart (skipn 10 s)
  else if startsWith s (lit "Why:") then trimStart (skipn 4 s)
  else s.

(** [subContent.replace(/^Example:\s*`([^`]+)`/, '$1')] *)
Definition unquoteExample (s : jsstring) : jsstring :=
  if startsWith s (lit "Example:") then
    match trimStart (skipn 8 s) with
    | tick :: r =>
      if (tick =? 96)%N then
        match span (fun c => negb (c =? 96)%N) r with
        | ((_ :: _) as body, _ :: after) => body ++ after
        | _ => s
        end
      else s
    | [] => s
    end
  else s.

(** The match of [content] against the front-matter expression: a first line
    of three dashes, the shortest text up to a line of three dashes (group 1),
    and everything after that line's line feed (group 2). *)
Definition matchFrontmatter (content : jsstring)
  : option (jsstring * jsstring) :=
  if startsWith content (lit "---" ++ nl)
  then cut (skipn 4 content) (nl ++ lit "---" ++ nl)
  else None.

(** ** Section type inference *)

Inductive SectionType : Type := instructions | rules | examples | context.

Definition SectionType_eqb (a b : SectionType) : bool :=
  match a, b with
  | instructions, instructions | rules, rules
  | examples, examples | context, context => true
  | _, _ => false
  end.

(** The look-ahead loop of [inferSectionType], over the lines it visits. *)
Fixpoint lookAhead (next : list jsstring) : SectionType :=
  match next with
  | [] => instructions
  | l :: next' =>
    let line := trim l in
    if startsWith line (lit "- ") || matchOrdinal line then rules
    else if startsWith line (lit "### ") || startsWith line (lit "```")
    then examples
    else lookAhead next'
  end.

(** The loop runs [i] from [startIndex + 1] while
    [i < min (startIndex + 5) lines.length]: the next four lines. *)
Definition inferSectionType (title : jsstring) (lines : list jsstring)
           (startIndex : nat) : SectionType :=
  let titleLower := toLowerCase title in
  if includes titleLower (lit "example") || includes titleLower (lit "sample")
     || includes titleLower (lit "usage")
  then examples
  else if includes titleLower (lit "rule")
       || includes titleLower (lit "guideline")
       || includes titleLower (lit "standard")
       || includes titleLower (lit "convention")
       || includes titleLower (lit "requirement")
       || includes titleLower (lit "must")
       || includes titleLower (lit "should")
  then rules
  else if includes titleLower (lit "context")
       || includes titleLower (lit "background")
       || includes titleLower (lit "overview")
       || includes titleLower (lit "about")
       || includes titleLower (lit "introduction")
  then context
  else lookAhead (firstn 4 (skipn (startIndex + 1) lines)).

(** ** Tags *)

Definition techKeywords : list jsstring :=
  [ lit "typescript"; lit "javascript"; lit "python"; lit "react";
    lit "testing"; lit "api"; lit "backend"; lit "frontend";
    lit "database"; lit "security" ].

Definition inferTags (content : jsstring) : list jsstring :=
  let contentLower := toLowerCase content in
  let tags := filter (fun keyword => includes contentLower keyword)
                     techKeywords in
  let tags :=
    if includes contentLower (lit "codex")
       || includes contentLower (lit "openai")
    then tags ++ [lit "codex"] else tags in
  firstn 5 tags.

(** ** Description *)

(** The loop of [extractDescription]; a result is returned when the loop
    breaks or the lines run out. *)
Fixpoint descriptionLoop (lines : list jsstring) (afterHeading : bool)
         (descriptionLines : list jsstring) : list jsstring :=
  match lines with
  | [] => descriptionLines
  | line :: rest =>
    if startsWith line (lit "# ") then
      descriptionLoop rest true descriptionLines
    else if afterHeading
            && (startsWith line (lit "## ") || startsWith line (lit "### "))
    then descriptionLines
    else if afterHeading && truthy (trim line) then
      let descriptionLines := descriptionLines ++ [trim line] in
      if (0 <? List.length descriptionLines)%nat
         && negb (truthy (trim line))
      then descriptionLines
      else descriptionLoop rest afterHeading descriptionLines
    else descriptionLoop rest afterHeading descriptionLines
  end.

Definition extractDescription (content : jsstring) : jsstring :=
  substring0 (join (lit " ") (descriptionLoop (split_lines content) false []))
             200.

(** ** The line scanner *)

(** The object held in [currentSection]. *)
Record ParsedSection : Type := mkParsed {
  ps_type     : SectionType;
  ps_title    : jsstring;
  ps_content  : list jsstring;
  ps_items    : option (list Rule);
  ps_examples : option (list Example)
}.

(** The object held in [currentCodeBlock]. *)
Record CodeBlock : Type := mkCodeBlock {
  cb_description : jsstring;
  cb_code        : list jsstring;
  cb_language    : option jsstring;
  cb_good        : option bool
}.

(** The variables of [parseMarkdown] that live across loop iterations. *)
Record ParseState : Type := mkState {
  sections         : list Section;
  currentSection   : option ParsedSection;
  inCodeBlock      : bool;
  currentCodeBlock : option CodeBlock
}.

Definition initialState : ParseState :=
  {| sections := []; currentSection := None;
     inCodeBlock := false; currentCodeBlock := None |}.

Definition buildSection (parsed : ParsedSection) : Section :=
  match ps_type parsed with
  | rules =>
    RulesSection (ps_title parsed)
      (Some (map (fun item => {| rule_content := rule_content item;
                                 rule_rationale := rule_rationale item;
                                 rule_examples := rule_examples item |})
                 (match ps_items parsed with Some l => l | None => [] end)))
      (Some false)
  | examples =>
    ExamplesSection (ps_title parsed)
      (Some (match ps_examples parsed with Some l => l | None => [] end))
  | context =>
    ContextSection (ps_title parsed) (join nl (ps_content parsed))
  | instructions =>
    InstructionsSection (ps_title parsed) (join nl (ps_content parsed)) None
  end.

(** [if (currentSection) sections.push(buildSection(currentSection))] *)
Definition flushSection (st : ParseState) : list Section :=
  match currentSection st with
  | Some cs => sections st ++ [buildSection cs]
  | None => sections st
  end.

(** Assignment to the last element of an array (the parser mutates
    [items[items.length - 1]] in place). *)
Fixpoint updateLast {A} (f : A -> A) (l : list A) : list A :=
  match l with
  | [] => []
  | [a] => [f a]
  | a :: l' => a :: updateLast f l'
  end.

Definition isRules (cs : option ParsedSection) : bool :=
  match cs with
  | Some s => SectionType_eqb (ps_type s) rules
  | None => false
  end.

(** The sub-bullet branch, on the last rule. *)
Definition applySubBullet (subContent : jsstring) (lastItem : Rule) : Rule :=
  if startsWith subContent (lit "Rationale:")
     || startsWith subContent (lit "Why:")
  then {| rule_content := rule_content lastItem;
          rule_rationale := Some (stripRationaleLabel subContent);
          rule_examples := rule_examples lastItem |}
  else if startsWith subContent (lit "Example:")
  then {| rule_content := rule_content lastItem;
          rule_rationale := rule_rationale lastItem;
          rule_examples :=
            Some ((match rule_examples lastItem with
                   | Some l => l | None => [] end)
                  ++ [unquoteExample subContent]) |}
  else lastItem.

(** One iteration of the loop of [parseMarkdown], on line [i] of [lines]. *)
Definition parseLine (lines : list jsstring) (i : nat) (line : jsstring)
           (st : ParseState) : Exn.t ParseState :=
  if startsWith line (lit "# ") then
    (* main title: a context section *)
    let title := trim (substring line 2) in
    ret {| sections := flushSection st;
           currentSection :=
             Some {| ps_type := context;
                     ps_title := lit "Project Overview";
                     ps_content := [title];
                     ps_items := None; ps_examples := None |};
           inCodeBlock := inCodeBlock st;
           currentCodeBlock := currentCodeBlock st |}
  else if startsWith line (lit "## ") then
    (* section header *)
    let title := trim (substring line 3) in
    let sectionType := inferSectionType title lines i in
    ret {| sections := flushSection st;
           currentSection :=
             Some {| ps_type := sectionType;
                     ps_title := title;
                     ps_content := [];
                     ps_items :=
                       if SectionType_eqb sectionType rules
                       then Some [] else None;
                     ps_examples :=
                       if SectionType_eqb sectionType examples
                       then Some [] else None |};
           inCodeBlock := inCodeBlock st;
           currentCodeBlock := currentCodeBlock st |}
  else if startsWith line (lit "### ") then
    (* example description *)
    let description := trim (substring line 4) in
    let good :=
      startsWith description (lit "✅")
      || includes (toLowerCase description) (lit "preferred")
      || includes (toLowerCase description) (lit "do:") in
    ret {| sections := sections st;
           currentSection := currentSection st;
           inCodeBlock := inCodeBlock st;
           currentCodeBlock :=
             Some {| cb_description :=
                       stripPolarityLabel (stripPolarityIcon description);
                     cb_code := [];
                     cb_language := None;
                     cb_good := Some good |} |}
  else if startsWith line (lit "```") then
    if negb (inCodeBlock st) then
      (* start of code block *)
      let language :=
        let l := trim (substring line 3) in
        if truthy l then Some l else None in
      ret {| sections := sections st;
             currentSection := currentSection st;
             inCodeBlock := true;
             currentCodeBlock :=
               match currentCodeBlock st with
               | Some cb =>
                 Some {| cb_description := cb_description cb;
                         cb_code := cb_code cb;
                         cb_language := language;
                         cb_good := cb_good cb |}
               | None =>
                 Some {| cb_description := lit "Code example";
                         cb_code := [];
                         cb_language := language;
                         cb_good := None |}
               end |}
    else
      (* end of code block *)
      match currentCodeBlock st, currentSection st with
      | Some cb, Some cs =>
        if SectionType_eqb (ps_type cs) examples then
          match ps_examples cs with
          | None => throw (TypeError ParsedExamplesUndefined)
          | Some exs =>
            ret {| sections := sections st;
                   currentSection :=
                     Some {| ps_type := ps_type cs;
                             ps_title := ps_title cs;
                             ps_content := ps_content cs;
                             ps_items := ps_items cs;
                             ps_examples :=
                               Some (exs ++
                                 [{| ex_description := cb_description cb;
                                     ex_code := join nl (cb_code cb);
                                     ex_language := cb_language cb;
                                     ex_good := cb_good cb |}]) |};
                   inCodeBlock := false;
                   currentCodeBlock := None |}
          end
        else
          (* the block goes, fenced again, to the content of the section *)
          ret {| sections := sections st;
                 currentSection :=
                   Some {| ps_type := ps_type cs;
                           ps_title := ps_title cs;
                           ps_content :=
                             ps_content cs ++
                               [lit "```"
                                ++ match cb_language cb with
                                   | Some l => l | None => [] end
                                ++ nl ++ join nl (cb_code cb)
                                ++ nl ++ lit "```"];
                           ps_items := ps_items cs;
                           ps_examples := ps_examples cs |};
                 inCodeBlock := false;
                 currentCodeBlock := None |}
      | _, _ =>
        ret {| sections := sections st;
               currentSection := currentSection st;
               inCodeBlock := false;
               currentCodeBlock := currentCodeBlock st |}
      end
  else
    match inCodeBlock st, currentCodeBlock st with
    | true, Some cb =>
      (* inside code block *)
      ret {| sections := sections st;
             currentSection := currentSection st;
             inCodeBlock := inCodeBlock st;
             currentCodeBlock :=
               Some {| cb_description := cb_description cb;
                       cb_code := cb_code cb ++ [line];
                       cb_language := cb_language cb;
                       cb_good := cb_good cb |} |}
    | _, _ =>
      if (startsWith line (lit "- ") || matchOrdinal line)
         && isRules (currentSection st)
      then
        (* list item: a rule *)
        match currentSection st with
        | Some cs =>
          match ps_items cs with
          | None => throw (TypeError ParsedItemsUndefined)
          | Some items =>
            let itemContent := trim (stripListMarker line) in
            ret {| sections := sections st;
                   currentSection :=
                     Some {| ps_type := ps_type cs;
                             ps_title := ps_title cs;
                             ps_content := ps_content cs;
                             ps_items :=
                               Some (items ++
                                 [{| rule_content := itemContent;
                                     rule_rationale := None;
                                     rule_examples := None |}]);
                             ps_examples := ps_examples cs |};
                   inCodeBlock := inCodeBlock st;
                   currentCodeBlock := currentCodeBlock st |}
          end
        | None => ret st
        end
      else if startsWith line (lit "   - ") && isRules (currentSection st)
      then
        match currentSection st with
        | Some cs =>
          match ps_items cs with
          | None => throw (TypeError ParsedItemsUndefined)
          | Some [] =>
            (* [items.length > 0] fails: a regular content line *)
            if truthy (trim line)
            then ret {| sections := sections st;
                        currentSection :=
                          Some {| ps_type := ps_type cs;
                                  ps_title := ps_title cs;
                                  ps_content := ps_content cs ++ [line];
                                  ps_items := ps_items cs;
                                  ps_examples := ps_examples cs |};
                        inCodeBlock := inCodeBlock st;
                        currentCodeBlock := currentCodeBlock st |}
            else ret st
          | Some items =>
            (* sub-bullet: rationale or example of the last rule *)
            let subContent := trim (substring line 5) in
            ret {| sections := sections st;
                   currentSection :=
                     Some {| ps_type := ps_type cs;
                             ps_title := ps_title cs;
                             ps_content := ps_content cs;
                             ps_items :=
                               Some (updateLast (applySubBullet subContent)
                                                items);
                             ps_examples := ps_examples cs |};
                   inCodeBlock := inCodeBlock st;
                   currentCodeBlock := currentCodeBlock st |}
          end
        | None => ret st
        end
      else
        (* regular content line *)
        match currentSection st with
        | Some cs =>
          if truthy (trim line)
          then ret {| sections := sections st;
                      currentSection :=
                        Some {| ps_type := ps_type cs;
                                ps_title := ps_title cs;
                                ps_content := ps_content cs ++ [line];
                                ps_items := ps_items cs;
                                ps_examples := ps_examples cs |};
                      inCodeBlock := inCodeBlock st;
                      currentCodeBlock := currentCodeBlock st |}
          else ret st
        | None => ret st
        end
    end.

(** The loop: [rest] is what is left of [lines] from index [i] on. *)
Fixpoint parseLoop (lines : list jsstring) (i : nat) (rest : list jsstring)
         (st : ParseState) : Exn.t ParseState :=
  match rest with
  | [] => ret st
  | line :: rest' =>
    st' <- parseLine lines i line st ;;
    parseLoop lines (S i) rest' st'
  end.

Definition parseMarkdown (content : jsstring) : Exn.t (list Section) :=
  let lines := split_lines content in
  st <- parseLoop lines 0 lines initialState ;;
  (* add last section *)
  ret (flushSection st).

(** ** Front matter and the package *)

Record Frontmatter : Type := mkFrontmatter {
  fm_project : option jsstring;
  fm_scope   : option jsstring
}.

Definition emptyFrontmatter : Frontmatter :=
  {| fm_project := None; fm_scope := None |}.

(** Modelled from the spec: [setTaxonomy] of [taxonomy-utils.ts], which is
    not among the sources.  The package "declares its editor-facing taxonomy
    (ecosystem + sub-kind)"; the two are written to the package. *)
Definition setTaxonomy (pkg : CanonicalPackage) (format subtype : jsstring)
  : CanonicalPackage :=
  {| pkg_id := pkg_id pkg; pkg_version := pkg_version pkg;
     pkg_name := pkg_name pkg; pkg_description := pkg_description pkg;
     pkg_author := pkg_author pkg; pkg_tags := pkg_tags pkg;
     pkg_content := pkg_content pkg;
     pkg_sourceFormat := pkg_sourceFormat pkg;
     pkg_metadata := pkg_metadata pkg;
     pkg_format := Some format; pkg_subtype := Some subtype |}.

Section WithYaml.

(** [yaml.load] of the js-yaml library, seen through what the parser does
    with its result: [None] when it raises; otherwise the two keys the parser
    reads, a key being [Some s] when the loaded value is an object that holds
    the string [s] under it. *)
Variable yaml_load : jsstring -> option Frontmatter.

Definition parseFrontmatter (content : jsstring) : Frontmatter * jsstring :=
  match matchFrontmatter content with
  | None => (emptyFrontmatter, content)
  | Some (frontmatterText, body) =>
    match yaml_load frontmatterText with
    | Some parsed =>
      ({| fm_project := fm_project parsed; fm_scope := fm_scope parsed |},
       body)
    | None =>
      (* the YAML did not parse: empty front matter, the whole text as body *)
      (emptyFrontmatter, content)
    end
  end.

Definition metadataSection (metadata : PackageMetadata)
           (description : jsstring) : Section :=
  MetadataSection
    (Some {| md_title := Some (pm_name metadata);
             md_description := Some description;
             md_icon := None |}).

Definition fromAgentsMd (content : jsstring) (metadata : PackageMetadata)
  : Exn.t CanonicalPackage :=
  let '(frontmatter, body) := parseFrontmatter content in
  sections <- parseMarkdown body ;;
  let description :=
    or_else (pm_description metadata) (extractDescription body) in
  let canonicalContent :=
    {| cc_format := lit "canonical";
       cc_version := lit "1.0";
       cc_sections := metadataSection metadata description :: sections |} in
  let pkg :=
    {| pkg_id := pm_id metadata;
       pkg_version := or_else (pm_version metadata) (lit "1.0.0");
       pkg_name := pm_name metadata;
       pkg_description := description;
       pkg_author := or_else (pm_author metadata) [];
       pkg_tags :=
         match pm_tags metadata with
         | Some tags => tags
         | None => lit "agents.md" :: inferTags body
         end;
       pkg_content := canonicalContent;
       pkg_sourceFormat := lit "agents.md";
       pkg_metadata :=
         Some {| pi_title := Some (pm_name metadata);
                 pi_description := Some description;
                 pi_version := None;
                 pi_globs := None;
                 pi_alwaysApply := None;
                 pi_agentsMdConfig :=
                   Some {| amc_project := fm_project frontmatter;
                           amc_scope := fm_scope frontmatter |} |};
       pkg_format := None;
       pkg_subtype := None |} in
  ret (setTaxonomy pkg (lit "agents.md") (lit "rule")).

End WithYaml.

End FromAgentsMd.

(* ================================================================== *)
(** * The Cursor converter ([to-cursor.ts])                             *)
(* ================================================================== *)

Module ToCursor.

Import Exn.

Record CursorMDCConfig : Type := mkCursorConfig {
  cfg_version     : option jsstring;
  cfg_globs       : option (list jsstring);
  cfg_alwaysApply : option bool;
  cfg_author      : option jsstring;
  cfg_tags        : option (list jsstring)
}.

Fixpoint jseqb (a b : jsstring) : bool :=
  match a, b with
  | [], [] => true
  | x :: a', y :: b' => (x =? y)%N && jseqb a' b'
  | _, _ => false
  end.

Definition ofBool (b : bool) : jsstring :=
  if b then lit "true" else lit "false".

(** [o?.field] where [o] itself may be undefined. *)
Definition opt_field {A B} (o : option A) (f : A -> option B) : option B :=
  match o with Some a => f a | None => None end.

(** ** The MDC header *)

Definition generateMDCHeader (pkg : CanonicalPackage)
           (config : option CursorMDCConfig) : jsstring :=
  let lines := [lit "---"] in
  (* description *)
  let lines :=
    match opt_field (pkg_metadata pkg) pi_description with
    | Some d =>
      if truthy d
      then lines ++ [lit "description: " ++ [34%N] ++ d ++ [34%N]]
      else lines
    | None => lines
    end in
  (* globs: an array is truthy even when empty *)
  let globs :=
    match opt_field config cfg_globs with
    | Some g => Some g
    | None => opt_field (pkg_metadata pkg) pi_globs
    end in
  let lines :=
    match globs with
    | Some ((_ :: _) as gs) =>
      lines ++ [lit "globs:"]
            ++ map (fun glob => lit "  - " ++ [34%N] ++ glob ++ [34%N]) gs
    | _ => lines
    end in
  (* always apply *)
  let alwaysApply :=
    match opt_field config cfg_alwaysApply with
    | Some b => b
    | None =>
      match opt_field (pkg_metadata pkg) pi_alwaysApply with
      | Some b => b
      | None => false
      end
    end in
  let lines := lines ++ [lit "alwaysApply: " ++ ofBool alwaysApply] in
  (* extension fields, as comments *)
  let title := or_else (opt_field (pkg_metadata pkg) pi_title) (pkg_id pkg) in
  let lines :=
    if truthy title
    then lines ++ [lit "# title: " ++ [34%N] ++ title ++ [34%N]]
    else lines in
  let version :=
    if truthy_opt (opt_field config cfg_version)
    then opt_field config cfg_version
    else opt_field (pkg_metadata pkg) pi_version in
  let lines :=
    match version with
    | Some v =>
      if truthy v
      then lines ++ [lit "# version: " ++ [34%N] ++ v ++ [34%N]]
      else lines
    | None => lines
    end in
  let lines :=
    match opt_field config cfg_tags with
    | Some ((_ :: _) as tags) =>
      lines ++ [lit "# tags:"]
            ++ map (fun tag => lit "#   - " ++ [34%N] ++ tag ++ [34%N]) tags
    | _ => lines
    end in
  let lines :=
    match opt_field config cfg_author with
    | Some a =>
      if truthy a
      then lines ++ [lit "# author: " ++ [34%N] ++ a ++ [34%N]]
      else lines
    | None => lines
    end in
  let lines := lines ++ [lit "---"] in
  join nl lines.

(** ** The section renderers *)

Definition convertMetadata (data : option MetadataData) : Exn.t jsstring :=
  match data with
  | None => throw (TypeError MetadataDataUndefined)
  | Some d =>
    let lines :=
      match md_title d with
      | Some title =>
        if truthy_opt (md_icon d)
        then [lit "# " ++ or_else (md_icon d) [] ++ lit " " ++ title]
        else [lit "# " ++ title]
      | None => []
      end in
    let lines :=
      match md_description d with
      | Some description =>
        if truthy description then lines ++ [[]; description] else lines
      | None => lines
      end in
    ret (join nl lines)
  end.

Definition convertInstructions (title content : jsstring)
           (priority : option jsstring) : jsstring :=
  let lines := [lit "## " ++ title; []] in
  let lines :=
    match priority with
    | Some p =>
      if jseqb p (lit "high") then lines ++ [lit "**Important:**"; []]
      else lines
    | None => lines
    end in
  let lines := lines ++ [content] in
  join nl lines.

(** The callback of [section.items.forEach] in [convertRules]. *)
Definition renderRule (ordered : bool) (index : nat) (rule : Rule)
  : list jsstring :=
  let prefix := if ordered then ofNat (index + 1) ++ lit "." else lit "-" in
  [prefix ++ lit " " ++ rule_content rule]
  ++ (if truthy_opt (rule_rationale rule)
      then [lit "   - *Rationale: " ++ or_else (rule_rationale rule) []
            ++ lit "*"]
      else [])
  ++ (match rule_examples rule with
      | Some exs =>
        map (fun example => lit "   - Example: `" ++ example ++ lit "`") exs
      | None => []
      end).

Fixpoint renderRules (ordered : bool) (index : nat) (items : list Rule)
  : list jsstring :=
  match items with
  | [] => []
  | rule :: items' =>
    renderRule ordered index rule ++ renderRules ordered (S index) items'
  end.

Definition convertRules (title : jsstring) (items : option (list Rule))
           (ordered : option bool) : Exn.t jsstring :=
  match items with
  | None => throw (TypeError RulesItemsUndefined)
  | Some items =>
    let ordered := match ordered with Some b => b | None => false end in
    ret (join nl ([lit "## " ++ title; []] ++ renderRules ordered 0 items))
  end.

Definition renderExample (example : Example) : list jsstring :=
  let prefix :=
    match ex_good example with
    | Some false => lit "❌ Bad"
    | _ => lit "✅ Good"
    end in
  let lang := match ex_language example with Some l => l | None => [] end in
  [lit "### " ++ prefix ++ lit ": " ++ ex_description example; [];
   lit "```" ++ lang; ex_code example; lit "```"; []].

Definition convertExamples (title : jsstring)
           (examples : option (list Example)) : Exn.t jsstring :=
  match examples with
  | None => throw (TypeError ExamplesListUndefined)
  | Some examples =>
    ret (join nl ([lit "## " ++ title; []] ++ flat_map renderExample examples))
  end.

Definition convertPersona (data : option PersonaData) : Exn.t jsstring :=
  match data with
  | None => throw (TypeError PersonaDataUndefined)
  | Some d =>
    let lines := [lit "## Role"; []] in
    let lines :=
      match pd_role d with
      | Some role =>
        if truthy_opt (pd_icon d) && truthy_opt (pd_name d)
        then lines ++ [or_else (pd_icon d) [] ++ lit " **"
                       ++ or_else (pd_name d) [] ++ lit "** - " ++ role]
        else if truthy_opt (pd_name d)
        then lines ++ [lit "**" ++ or_else (pd_name d) [] ++ lit "** - "
                       ++ role]
        else lines ++ [role]
      | None => lines
      end in
    let lines :=
      match pd_style d with
      | Some ((_ :: _) as style) =>
        lines ++ [[]; lit "**Style:** " ++ join (lit ", ") style]
      | _ => lines
      end in
    let lines :=
      match pd_expertise d with
      | Some ((_ :: _) as expertise) =>
        lines ++ [[]; lit "**Expertise:**"]
              ++ map (fun area => lit "- " ++ area) expertise
      | _ => lines
      end in
    ret (join nl lines)
  end.

Definition convertContext (title content : jsstring) : jsstring :=
  join nl [lit "## " ++ title; []; content].

(** ** Sections and content

    [warnings] is one array, created by [toCursor] and passed down: a
    computation receives its current contents and returns them extended, also
    when it raises. *)

Definition Conv (A : Type) : Type :=
  list jsstring -> list jsstring * Exn.t A.

Definition lift {A} (m : Exn.t A) : Conv A := fun warnings => (warnings, m).

Definition warnAndSkip (warning : jsstring) : Conv jsstring :=
  fun warnings => (warnings ++ [warning], ret []).

Definition convertSection (section : Section) : Conv jsstring :=
  match section with
  | MetadataSection data => lift (convertMetadata data)
  | InstructionsSection title content priority =>
    lift (ret (convertInstructions title content priority))
  | RulesSection title items ordered =>
    lift (convertRules title items ordered)
  | ExamplesSection title examples => lift (convertExamples title examples)
  | PersonaSection data => lift (convertPersona data)
  | ContextSection title content => lift (ret (convertContext title content))
  | ToolsSection _ =>
    warnAndSkip (lit "Tools section skipped (Claude-specific)")
  | CustomSection editorType content =>
    if negb (truthy_opt editorType)
       || jseqb (or_else editorType []) (lit "cursor")
    then lift (ret content)
    else warnAndSkip (lit "Custom " ++ or_else editorType []
                      ++ lit " section skipped")
  | OtherSection type => warnAndSkip (lit "Unknown section type: " ++ type)
  end.

(** The loop of [convertContent]; [lines] is the array built so far. *)
Fixpoint convertLoop (sections : list Section) (lines : list jsstring)
  : Conv (list jsstring) :=
  fun warnings =>
    match sections with
    | [] => (warnings, ret lines)
    | section :: sections' =>
      match convertSection section warnings with
      | (warnings', inl e) => (warnings', inl e)
      | (warnings', inr sectionContent) =>
        convertLoop sections'
          (if truthy sectionContent
           then lines ++ [sectionContent; []]
           else lines)
          warnings'
      end
    end.

Definition convertContent (content : CanonicalContent) : Conv jsstring :=
  fun warnings =>
    match convertLoop (cc_sections content) [] warnings with
    | (warnings', inl e) => (warnings', inl e)
    | (warnings', inr lines) => (warnings', ret (trim (join nl lines)))
    end.

(** ** The converter *)

Definition isLossyWarning (w : jsstring) : bool :=
  includes w (lit "not supported") || includes w (lit "skipped").

Section WithEngine.

(** The text the engine gives to the [message] of the [TypeError] it raises
    at each site. *)
Variable typeErrorMessage : FaultSite -> jsstring.

Definition errorMessage (e : JsError) : jsstring :=
  match e with TypeError site => typeErrorMessage site end.

Definition toCursor (pkg : CanonicalPackage)
           (cursorConfig : option CursorMDCConfig) : ConversionResult :=
  let warnings : list jsstring := [] in
  let qualityScore := 100%Z in
  let mdcHeader := generateMDCHeader pkg cursorConfig in
  match convertContent (pkg_content pkg) warnings with
  | (warnings, inr content) =>
    let fullContent := mdcHeader ++ nl ++ nl ++ content in
    let lossyConversion := existsb isLossyWarning warnings in
    let qualityScore :=
      if lossyConversion then (qualityScore - 10)%Z else qualityScore in
    {| res_content := fullContent;
       res_format := lit "cursor";
       res_warnings :=
         match warnings with [] => None | _ :: _ => Some warnings end;
       res_lossyConversion := lossyConversion;
       res_qualityScore := qualityScore |}
  | (warnings, inl error) =>
    (* catch *)
    let warnings := warnings ++ [lit "Conversion error: " ++ errorMessage error] in
    {| res_content := [];
       res_format := lit "cursor";
       res_warnings := Some warnings;
       res_lossyConversion := true;
       res_qualityScore := 0%Z |}
  end.

End WithEngine.

(** ** Format detection *)

Definition isCursorFormat (content : jsstring) : bool :=
  includes content (lit "# ")
  && negb (includes content (lit "---" ++ nl))
  && negb (includes content ([34%N] ++ lit "systemMessage" ++ [34%N])).

End ToCursor.

(* ================================================================== *)
(** * The Kiro converter ([to-kiro.ts]): its configuration check        *)
(* ================================================================== *)

Module ToKiro.

Inductive Inclusion : Type := always | manual | fileMatch.

Record KiroConfig : Type := mkKiroConfig {
  inclusion        : option Inclusion;
  fileMatchPattern : option jsstring;
  domain           : option jsstring
}.

(** An [Error] raised to the caller, with its message. *)
Inductive KiroError : Type :=
| ConfigError (message : jsstring).

Section WithRendering.

(** The rendering of a package under a configuration that passed the check
    (front matter, sections, score).  [to-kiro.ts] is not among the sources
    and the claims proved here do not depend on it. *)
Variable renderKiro :
  CanonicalPackage -> Inclusion -> KiroConfig -> ConversionResult.

(** Modelled from the spec: [toKiro] of [to-kiro.ts], of which only the test
    suite is among the sources.  The converter "requires the caller to supply
    an inclusion mode; if omitted, the converter fails fast with a descriptive
    error naming the missing configuration rather than guessing a default,
    and if the chosen mode requires an additional parameter (a file-match
    pattern) and that parameter is absent, it likewise fails fast".  The two
    messages are the ones the test-suite expects. *)
Definition toKiro (pkg : CanonicalPackage) (kiroConfig : option KiroConfig)
  : KiroError + ConversionResult :=
  match kiroConfig with
  | None => inl (ConfigError (lit "Kiro format requires inclusion mode"))
  | Some config =>
    match inclusion config with
    | None => inl (ConfigError (lit "Kiro format requires inclusion mode"))
    | Some fileMatch =>
      match fileMatchPattern config with
      | None =>
        inl (ConfigError
               (lit "fileMatch inclusion mode requires fileMatchPattern"))
      | Some _ => inr (renderKiro pkg fileMatch config)
      end
    | Some mode => inr (renderKiro pkg mode config)
    end
  end.

End WithRendering.

End ToKiro.

(* ================================================================== *)
(** * Predicates and sample inputs used by the statements               *)
(* ================================================================== *)

Module Props.

Import Exn FromAgentsMd ToCursor ToKiro.

(** ** Parser *)

(** The object in [currentSection] has the array its type needs: a rules
    section its [items], an examples section its [examples]. *)
Definition wfParsed (cs : ParsedSection) : bool :=
  match ps_type cs with
  | rules => match ps_items cs with Some _ => true | None => false end
  | examples => match ps_examples cs with Some _ => true | None => false end
  | _ => true
  end.

Definition wfState (st : ParseState) : bool :=
  match currentSection st with
  | Some cs => wfParsed cs
  | None => true
  end.

(** A section that [buildSection] returned. *)
Definition isBuilt (s : Section) : Prop := exists cs, s = buildSection cs.

Definition isMetadata (s : Section) : bool :=
  match s with MetadataSection _ => true | _ => false end.

(** A rules section is recorded as unordered. *)
Definition rulesUnordered (s : Section) : bool :=
  match s with
  | RulesSection _ _ (Some false) => true
  | RulesSection _ _ _ => false
  | _ => true
  end.

(** A line the scanner reads as a list item of a rules section. *)
Definition isListItem (line : jsstring) : bool :=
  startsWith line (lit "- ") || matchOrdinal line.

(** A line that is neither a heading nor a fence. *)
Definition plainLine (line : jsstring) : bool :=
  negb (startsWith line (lit "# ")) && negb (startsWith line (lit "## "))
  && negb (startsWith line (lit "### ")) && negb (startsWith line (lit "```")).

(** The language tag of an opening fence. *)
Definition fenceLanguage (fence : jsstring) : option jsstring :=
  let l := trim (substring fence 3) in
  if truthy l then Some l else None.

(** [currentSection.examples.push(example)] *)
Definition pushExample (cs : ParsedSection) (example : Example)
  : ParsedSection :=
  {| ps_type := ps_type cs; ps_title := ps_title cs;
     ps_content := ps_content cs; ps_items := ps_items cs;
     ps_examples :=
       Some (match ps_examples cs with Some l => l | None => [] end
             ++ [example]) |}.



(** The current section is an examples section titled [title] that holds
    the example [e]; an examples section titled [title] that holds [e] is
    among the sections [secs]. *)
Definition pendingExample (title : jsstring) (e : Example) (st : ParseState)
  : Prop :=
  exists cs exs,
    currentSection st = Some cs /\ ps_type cs = examples
    /\ ps_title cs = title /\ ps_examples cs = Some exs /\ In e exs.

Definition emittedExample (title : jsstring) (e : Example)
           (secs : list Section) : Prop :=
  exists exs, In (ExamplesSection title (Some exs)) secs /\ In e exs.

(** A [yaml.load] that always raises; used on inputs without front matter,
    where it is not called. *)
Definition noYaml (text : jsstring) : option Frontmatter := None.

Definition bareMetadata : PackageMetadata :=
  {| pm_id := lit "pkg"; pm_name := lit "Pkg"; pm_description := None;
     pm_author := None; pm_tags := None; pm_version := None |}.

Definition taggedMetadata : PackageMetadata :=
  {| pm_id := lit "pkg"; pm_name := lit "Pkg"; pm_description := None;
     pm_author := None; pm_tags := Some [lit "custom"]; pm_version := None |}.

Definition badHeading : jsstring := lit "### ❌ Bad: missing assertions".

Definition polarityInput : jsstring :=
  join nl [lit "## Examples"; []; badHeading; lit "```ts";
           lit "expect(run())"; lit "```"; []].

Definition roundTripInput : jsstring :=
  join nl [lit "# My Rules"; []; lit "Intro text."; []; lit "## Guidelines";
           []; lit "- Use strict types";
           lit "   - Rationale: fewer runtime errors"; []].

(** The section objects the scanner opens for the headings ["## Examples"]
    and ["## Rules"], and its state right after each. *)
Definition examplesOpened : ParsedSection :=
  {| ps_type := examples; ps_title := lit "Examples";
     ps_content := []; ps_items := None; ps_examples := Some [] |}.

Definition rulesOpened : ParsedSection :=
  {| ps_type := rules; ps_title := lit "Rules";
     ps_content := []; ps_items := Some []; ps_examples := None |}.

Definition opened (cs : ParsedSection) : ParseState :=
  {| sections := []; currentSection := Some cs;
     inCodeBlock := false; currentCodeBlock := None |}.

(** A text that is only front matter, and a text whose fence never closes. *)
Definition frontMatterOnly : jsstring :=
  lit "---" ++ nl ++ lit "project: demo" ++ nl ++ lit "---" ++ nl.

Definition unclosedFence : jsstring :=
  join nl [lit "## Notes"; lit "```js"; lit "let x = 1"].

Definition numberedInput : jsstring :=
  join nl [lit "## Steps"; lit "1. Install"; lit "2. Build"].

(** The tags as the specification words them: the caller's tags united with
    the inferred ones. *)
Definition tagsPerSpec (metadata : PackageMetadata) (body : jsstring)
  : list jsstring :=
  match pm_tags metadata with Some tags => tags | None => [] end
  ++ inferTags body.

(** ** Converter *)

(** Every field whose absence makes a renderer raise is present. *)
Definition wellShaped (s : Section) : bool :=
  match s with
  | MetadataSection None | PersonaSection None
  | RulesSection _ None _ | ExamplesSection _ None => false
  | _ => true
  end.

(** The text and the warnings [convertSection] produces for one section. *)
Definition rendered (s : Section) : jsstring :=
  match snd (convertSection s []) with
  | inr text => text
  | inl _ => []
  end.

Definition sectionWarnings (s : Section) : list jsstring :=
  fst (convertSection s []).

(** The kinds the converter skips with a warning. *)
Definition skippedKind (s : Section) : bool :=
  match s with
  | ToolsSection _ => true
  | CustomSection editorType _ =>
    truthy_opt editorType && negb (jseqb (or_else editorType []) (lit "cursor"))
  | OtherSection _ => true
  | _ => false
  end.

(** The sections that reach the output, in the order of the input. *)
Definition keptSections (sections : list Section) : list Section :=
  filter (fun s => truthy (rendered s)) sections.

(** The array [lines] that [convertContent] joins: for each kept section its
    text and an empty line. *)
Definition blocks (sections : list Section) : list jsstring :=
  flat_map (fun s => [rendered s; []]) (keptSections sections).

Definition warningsOf (r : ConversionResult) : list jsstring :=
  match res_warnings r with Some ws => ws | None => [] end.

(** The messages of V8 at the fault sites. *)
Definition v8Message (site : FaultSite) : jsstring :=
  match site with
  | ParsedItemsUndefined | ParsedExamplesUndefined =>
    lit "Cannot read properties of undefined (reading 'push')"
  | RulesItemsUndefined | ExamplesListUndefined =>
    lit "Cannot read properties of undefined (reading 'forEach')"
  | MetadataDataUndefined =>
    lit "Cannot destructure property 'title' of 'section.data' as it is undefined."
  | PersonaDataUndefined =>
    lit "Cannot destructure property 'name' of 'section.data' as it is undefined."
  end.

Definition samplePackage (sections : list Section) : CanonicalPackage :=
  {| pkg_id := lit "minimal"; pkg_version := lit "1.0.0";
     pkg_name := lit "Minimal Rule"; pkg_description := lit "A minimal rule";
     pkg_author := lit "tester"; pkg_tags := [];
     pkg_content := {| cc_format := lit "canonical"; cc_version := lit "1.0";
                       cc_sections := sections |};
     pkg_sourceFormat := lit "cursor";
     pkg_metadata := None; pkg_format := None; pkg_subtype := None |}.

Definition titleSection : Section :=
  MetadataSection (Some {| md_title := Some (lit "Minimal Rule");
                           md_description := Some (lit "A minimal rule");
                           md_icon := None |}).

Definition lossySections : list Section :=
  [ titleSection;
    ToolsSection [lit "Read"; lit "Write"];
    InstructionsSection (lit "Instructions") (lit "Be careful.") None ].

Definition faultySections : list Section :=
  [ ToolsSection [lit "Read"]; MetadataSection None ].

(** ** Headings and titles *)

(** A line that opens a section. *)
Definition isHeading (line : jsstring) : bool :=
  startsWith line (lit "# ") || startsWith line (lit "## ").

(** The title of the section a heading line opens. *)
Definition headingTitle (line : jsstring) : jsstring :=
  if startsWith line (lit "# ") then lit "Project Overview"
  else trim (substring line 3).

Definition sectionTitle (s : Section) : option jsstring :=
  match s with
  | InstructionsSection t _ _ | RulesSection t _ _
  | ExamplesSection t _ | ContextSection t _ => Some t
  | _ => None
  end.

(** The titles of the sections emitted so far and of the current one. *)
Definition titles (st : ParseState) : list (option jsstring) :=
  map sectionTitle (sections st)
  ++ match currentSection st with
     | Some cs => [Some (ps_title cs)]
     | None => []
     end.

(** Inside a fence there is a code block to add lines to. *)
Definition fenceOk (st : ParseState) : bool :=
  negb (inCodeBlock st)
  || match currentCodeBlock st with Some _ => true | None => false end.

(** The test [parseMarkdown] makes on the description of an example to set
    its [good] flag. *)
Definition goodMarker (description : jsstring) : bool :=
  startsWith description (lit "✅")
  || includes (toLowerCase description) (lit "preferred")
  || includes (toLowerCase description) (lit "do:").


(** [currentSection.items] replaced. *)
Definition withItems (cs : ParsedSection) (items : list Rule)
  : ParsedSection :=
  {| ps_type := ps_type cs; ps_title := ps_title cs;
     ps_content := ps_content cs;
     ps_items := Some items; ps_examples := ps_examples cs |}.

Definition plainRule (content : jsstring) : Rule :=
  {| rule_content := content; rule_rationale := None;
     rule_examples := None |}.



Definition rulesWithOne : ParsedSection :=
  withItems rulesOpened [plainRule (lit "Be kind")].

(** A [yaml.load] that reads the front matter of [frontMatterOnly]. *)
Definition demoYaml (text : jsstring) : option Frontmatter :=
  Some {| fm_project := Some (lit "demo"); fm_scope := None |}.

(** The main heading of a document, for [extractDescription]. *)
Definition isMainHeading (line : jsstring) : bool :=
  startsWith line (lit "# ").

(** The vocabulary keywords found in the lower-cased text. *)
Definition matchedKeywords (content : jsstring) : list jsstring :=
  filter (fun keyword => includes (toLowerCase content) keyword) techKeywords.

(** ** More on the converter *)

(** The kinds whose warning says "skipped". *)
Definition lossyKind (s : Section) : bool :=
  match s with
  | ToolsSection _ => true
  | CustomSection editorType _ =>
    truthy_opt editorType && negb (jseqb (or_else editorType []) (lit "cursor"))
  | _ => false
  end.

(** A section that is rendered, or an unknown one whose warning does not
    count as lossy. *)
Definition quietSection (s : Section) : bool :=
  match s with
  | OtherSection type =>
    negb (isLossyWarning (lit "Unknown section type: " ++ type))
  | _ => negb (skippedKind s)
  end.

(** The site at which a section of unexpected shape makes its renderer
    raise. *)
Definition faultSite (s : Section) : option Exn.FaultSite :=
  match s with
  | MetadataSection None => Some MetadataDataUndefined
  | PersonaSection None => Some PersonaDataUndefined
  | RulesSection _ None _ => Some RulesItemsUndefined
  | ExamplesSection _ None => Some ExamplesListUndefined
  | _ => None
  end.

(** A line of a rendered list: a bullet, or an indented sub-bullet. *)
Definition bulletLine (line : jsstring) : bool :=
  startsWith line (lit "- ") || startsWith line (lit "   - ").

End Props.

Import Props.

(* ================================================================== *)
(** * Proof automation                                                  *)
(* ================================================================== *)

Ltac split_ifs :=
  repeat match goal with
         | |- context [if ?c then _ else _] => destruct c eqn:?
         | |- context [match ?c with _ => _ end] => destruct c eqn:?
         end.

Ltac proj_simpl :=
  cbn [FromAgentsMd.currentSection FromAgentsMd.sections
       FromAgentsMd.inCodeBlock FromAgentsMd.currentCodeBlock
       FromAgentsMd.ps_type FromAgentsMd.ps_title FromAgentsMd.ps_content
       FromAgentsMd.ps_items FromAgentsMd.ps_examples
       FromAgentsMd.SectionType_eqb FromAgentsMd.isRules
       andb orb negb] in *.

Ltac destruct_state st :=
  let secs := fresh "secs" in
  let cur := fresh "cur" in
  let inb := fresh "inb" in
  let cb := fresh "cb" in
  destruct st as [secs cur inb cb];
  destruct cur as [[[] ? ? [?|] [?|]]|].

Ltac absurd_and :=
  match goal with
  | H : _ && false = true |- _ => rewrite andb_false_r in H; discriminate H
  end.

(** Replace every string literal by the code units it denotes. *)
Ltac norm_lits :=
  repeat match goal with
         | |- context [lit ?s] =>
           let v := eval vm_compute in (lit s) in change (lit s) with v
         end.

(* ================================================================== *)
(** * The line scanner: it never raises, and what it emits              *)
(* ================================================================== *)

Section ScannerFacts.

Import Exn FromAgentsMd.

(** One iteration keeps the state well formed, so it returns. *)
Lemma parseLine_total lines i line st :
  wfState st = true ->
  exists st', parseLine lines i line st = inr st' /\ wfState st' = true.
Proof.
  intros Hwf.
  destruct_state st; unfold wfState, wfParsed in Hwf; proj_simpl;
    try discriminate Hwf.
  all: unfold parseLine; proj_simpl.
  all: split_ifs; proj_simpl.
  all: try (eexists; split; [reflexivity|]).
  all: unfold wfState, wfParsed; proj_simpl; try reflexivity; try discriminate.
  all: try match goal with
       | |- match ?t with _ => _ end = true =>
         destruct t; try reflexivity; try discriminate
       end.
  all: try absurd_and.
Qed.

(** One iteration only appends to [sections], and only what [buildSection]
    returns. *)
Lemma parseLine_grows lines i line st st' :
  parseLine lines i line st = inr st' ->
  exists more, sections st' = sections st ++ more /\ Forall isBuilt more.
Proof.
  unfold parseLine, flushSection.
  split_ifs; intros H; try discriminate H; injection H as <-; proj_simpl.
  all: first [ exists []; rewrite app_nil_r; split; [reflexivity|constructor]
             | eexists; split; [reflexivity|];
               repeat constructor; eexists; reflexivity ].
Qed.

Lemma parseLoop_total lines rest : forall i st,
  wfState st = true ->
  exists st', parseLoop lines i rest st = inr st' /\ wfState st' = true.
Proof.
  induction rest as [|line rest IH]; intros i st Hwf.
  - exists st; split; [reflexivity|assumption].
  - destruct (parseLine_total lines i line st Hwf) as (st1 & E & Hwf1).
    cbn [parseLoop]. rewrite E. cbn [bind]. apply IH; assumption.
Qed.

Lemma parseLoop_grows lines rest : forall i st st',
  parseLoop lines i rest st = inr st' ->
  exists more, sections st' = sections st ++ more /\ Forall isBuilt more.
Proof.
  induction rest as [|line rest IH]; intros i st st' H.
  - injection H as <-. exists []. rewrite app_nil_r. split; [reflexivity|constructor].
  - cbn [parseLoop] in H.
    destruct (parseLine lines i line st) as [e|st1] eqn:E; [discriminate H|].
    cbn [bind] in H.
    destruct (parseLine_grows _ _ _ _ _ E) as (m1 & S1 & B1).
    destruct (IH _ _ _ H) as (m2 & S2 & B2).
    exists (m1 ++ m2). rewrite S2, S1, app_assoc. split; [reflexivity|].
    apply Forall_app; split; assumption.
Qed.

Lemma flushSection_built st :
  Forall isBuilt (sections st) -> Forall isBuilt (flushSection st).
Proof.
  intros H. unfold flushSection. destruct (currentSection st) as [cs|]; auto.
  apply Forall_app. split; auto. constructor; auto. exists cs; reflexivity.
Qed.

Lemma parseMarkdown_ok content :
  exists secs, parseMarkdown content = inr secs /\ Forall isBuilt secs.
Proof.
  unfold parseMarkdown.
  destruct (parseLoop_total (split_lines content) (split_lines content) 0
              initialState eq_refl) as (st & E & _).
  rewrite E. cbn [bind]. eexists; split; [reflexivity|].
  apply flushSection_built.
  destruct (parseLoop_grows _ _ _ _ _ E) as (more & -> & B). exact B.
Qed.

Lemma isBuilt_unordered s : isBuilt s -> rulesUnordered s = true.
Proof.
  intros [cs ->]. unfold buildSection. destruct (ps_type cs); reflexivity.
Qed.




(** ** A rules section that holds a rule *)




(** ** Lines that are not headings *)

Lemma listItem_plain line : isListItem line = true -> plainLine line = true.
Proof.
  unfold isListItem, plainLine, matchOrdinal. norm_lits.
  destruct line as [|c rest]; [discriminate|].
  cbn [startsWith span].
  destruct (N.eqb_spec c 45) as [->|N45].
  - intros _. reflexivity.
  - cbn [andb orb]. destruct (isDigit c) eqn:D; [|discriminate].
    intros _. unfold isDigit in D.
    apply andb_prop in D. destruct D as [D1 D2].
    apply N.leb_le in D1. apply N.leb_le in D2.
    destruct (N.eqb_spec c 35); [lia|].
    destruct (N.eqb_spec c 96); [lia|]. reflexivity.
Qed.

Lemma fence_not_heading fence :
  startsWith fence (lit "```") = true ->
  startsWith fence (lit "# ") = false
  /\ startsWith fence (lit "## ") = false
  /\ startsWith fence (lit "### ") = false.
Proof.
  norm_lits. destruct fence as [|c rest]; [discriminate|].
  cbn [startsWith]. destruct (N.eqb_spec c 96) as [->|]; [|discriminate].
  intros _. repeat split; reflexivity.
Qed.

End ScannerFacts.

(* ================================================================== *)
(** * The parser: examples                                              *)
(* ================================================================== *)

Section ExampleFacts.

Import Exn FromAgentsMd.

Lemma parseLoop_app lines a : forall b i st,
  parseLoop lines i (a ++ b) st
  = (st' <- parseLoop lines i a st ;; parseLoop lines (i + List.length a) b st').
Proof.
  induction a as [|line a IH]; intros b i st.
  - cbn. rewrite Nat.add_0_r. reflexivity.
  - cbn [app parseLoop List.length].
    destruct (parseLine lines i line st) as [e|st1]; cbn [bind]; [reflexivity|].
    rewrite IH. rewrite Nat.add_succ_r. reflexivity.
Qed.

(** Inside an open fence every line that is neither a heading nor a fence
    is added to the code of the block. *)
Lemma parseLoop_code lines code : forall i secs cur cb,
  forallb plainLine code = true ->
  parseLoop lines i code
    {| sections := secs; currentSection := cur; inCodeBlock := true;
       currentCodeBlock := Some cb |}
  = inr {| sections := secs; currentSection := cur; inCodeBlock := true;
           currentCodeBlock :=
             Some {| cb_description := cb_description cb;
                     cb_code := cb_code cb ++ code;
                     cb_language := cb_language cb;
                     cb_good := cb_good cb |} |}.
Proof.
  induction code as [|line code IH]; intros i secs cur cb H.
  - rewrite app_nil_r. destruct cb; reflexivity.
  - cbn [forallb] in H. apply andb_prop in H. destruct H as [Hl Hc].
    unfold plainLine in Hl.
    repeat (apply andb_prop in Hl; destruct Hl as [Hl ?]).
    repeat match goal with
           | H : negb _ = true |- _ => apply negb_true_iff in H
           end.
    cbn [parseLoop]. unfold parseLine at 1. proj_simpl.
    repeat match goal with
           | H : startsWith line _ = false |- _ => rewrite H
           end.
    proj_simpl. cbn [bind ret]. rewrite IH by assumption.
    cbn [cb_description cb_code cb_language cb_good].
    rewrite <- app_assoc. reflexivity.
Qed.

(** The heading itself is a fixed line. *)
Lemma parseLine_badHeading lines i st :
  parseLine lines i badHeading st
  = inr {| sections := sections st;
           currentSection := currentSection st;
           inCodeBlock := inCodeBlock st;
           currentCodeBlock :=
             Some {| cb_description := lit "Bad: missing assertions";
                     cb_code := [];
                     cb_language := None;
                     cb_good := Some false |} |}.
Proof. reflexivity. Qed.

Lemma parseLine_openFence lines i fence secs cur cb :
  startsWith fence (lit "```") = true ->
  parseLine lines i fence
    {| sections := secs; currentSection := cur; inCodeBlock := false;
       currentCodeBlock := Some cb |}
  = inr {| sections := secs; currentSection := cur; inCodeBlock := true;
           currentCodeBlock :=
             Some {| cb_description := cb_description cb;
                     cb_code := cb_code cb;
                     cb_language := fenceLanguage fence;
                     cb_good := cb_good cb |} |}.
Proof.
  intros F. destruct (fence_not_heading fence F) as (H1 & H2 & H3).
  unfold parseLine. rewrite H1, H2, H3, F. reflexivity.
Qed.

Lemma parseLine_closeFence lines i secs cs cb :
  ps_type cs = examples -> wfParsed cs = true ->
  parseLine lines i (lit "```")
    {| sections := secs; currentSection := Some cs; inCodeBlock := true;
       currentCodeBlock := Some cb |}
  = inr {| sections := secs;
           currentSection :=
             Some (pushExample cs
                     {| ex_description := cb_description cb;
                        ex_code := join nl (cb_code cb);
                        ex_language := cb_language cb;
                        ex_good := cb_good cb |});
           inCodeBlock := false; currentCodeBlock := None |}.
Proof.
  intros T W. unfold wfParsed in W. rewrite T in W.
  destruct cs as [ty t c its [exs|]]; proj_simpl; [|discriminate W].
  subst ty. reflexivity.
Qed.

(** ** An example, once added, reaches the output *)

Lemma parseLine_keeps_example lines i line st st' title e :
  parseLine lines i line st = inr st' ->
  pendingExample title e st ->
  pendingExample title e st' \/ emittedExample title e (sections st').
Proof.
  intros H (cs & exs & Hc & Ht & Htitle & He & Hin).
  destruct st as [secs cur inb cb]. proj_simpl. subst cur.
  destruct cs as [ty t content its exs']. proj_simpl. subst ty exs' t.
  revert H. unfold parseLine, flushSection, buildSection. proj_simpl.
  split_ifs; intros H; try discriminate H; injection H as <-; proj_simpl.
  all: try (right; exists exs; split; [|exact Hin];
            apply in_or_app; right; left; reflexivity).
  all: try (left; eexists; eexists; proj_simpl;
            repeat split; try reflexivity;
            first [ exact Hin | apply in_or_app; left; exact Hin ]).

Qed.

Lemma emittedExample_grows title e secs more :
  emittedExample title e secs -> emittedExample title e (secs ++ more).
Proof.
  intros (exs & Hs & He). exists exs. split; [|exact He].
  apply in_or_app. left. exact Hs.
Qed.

Lemma parseLoop_keeps_example lines rest : forall i st st' title e,
  parseLoop lines i rest st = inr st' ->
  pendingExample title e st \/ emittedExample title e (sections st) ->
  emittedExample title e (flushSection st').
Proof.
  induction rest as [|line rest IH]; intros i st st' title e H J.
  - injection H as <-. unfold flushSection.
    destruct J as [(cs & exs & -> & Ht & Htitle & He & Hin)|J].
    + exists exs. split; [|exact Hin]. apply in_or_app. right. left.
      unfold buildSection. rewrite Ht, He, Htitle. reflexivity.
    + destruct (currentSection st); auto using emittedExample_grows.
  - cbn [parseLoop] in H.
    destruct (parseLine lines i line st) as [e0|st1] eqn:E; [discriminate H|].
    cbn [bind] in H. apply (IH _ _ _ _ _ H).
    destruct J as [P|J].
    + apply (parseLine_keeps_example _ _ _ _ _ _ _ E P).
    + right. destruct (parseLine_grows _ _ _ _ _ E) as (more & -> & _).
      apply emittedExample_grows; assumption.
Qed.

End ExampleFacts.

(* ================================================================== *)
(** * The parser: the claims                                            *)
(* ================================================================== *)

Section ParserClaims.

Import Exn FromAgentsMd.

Variable yaml_load : jsstring -> option Frontmatter.

(** The package [fromAgentsMd] returns, in terms of the sections
    [parseMarkdown] returned for the body. *)
Lemma fromAgentsMd_ok content metadata :
  exists pkg secs,
    fromAgentsMd yaml_load content metadata = inr pkg
    /\ Forall isBuilt secs
    /\ cc_sections (pkg_content pkg)
       = metadataSection metadata (pkg_description pkg) :: secs
    /\ pkg_tags pkg
       = match pm_tags metadata with
         | Some tags => tags
         | None => lit "agents.md"
                   :: inferTags (snd (parseFrontmatter yaml_load content))
         end.
Proof.
  unfold fromAgentsMd.
  destruct (parseFrontmatter yaml_load content) as [fm body]. cbn [snd].
  destruct (parseMarkdown_ok body) as (secs & E & Hb).
  rewrite E. cbn [bind].
  eexists; exists secs. split; [reflexivity|]. repeat split; assumption.
Qed.

(** The scan of the heading [### ❌ Bad: missing assertions], an opening
    fence, lines that are neither headings nor fences, and a closing fence,
    in an examples section: one example is added to the section. *)
Lemma parseLoop_bad_heading_block lines i st cs fence code :
  currentSection st = Some cs ->
  ps_type cs = examples ->
  wfState st = true ->
  inCodeBlock st = false ->
  startsWith fence (lit "```") = true ->
  forallb plainLine code = true ->
  parseLoop lines i ([badHeading; fence] ++ code ++ [lit "```"]) st
  = inr {| sections := sections st;
           currentSection :=
             Some (pushExample cs
                     {| ex_description := lit "Bad: missing assertions";
                        ex_code := join nl code;
                        ex_language := fenceLanguage fence;
                        ex_good := Some false |});
           inCodeBlock := false;
           currentCodeBlock := None |}.
Proof.
  intros Hc Ht Hwf Hin Hf Hcode.
  destruct st as [secs cur inb cb]. proj_simpl. subst cur inb.
  unfold wfState in Hwf. proj_simpl.
  cbn [app parseLoop]. rewrite parseLine_badHeading. proj_simpl.
  cbn [bind]. rewrite parseLine_openFence by assumption. cbn [bind].
  rewrite parseLoop_app, parseLoop_code by assumption. cbn [bind].
  cbn [parseLoop cb_code cb_description cb_language cb_good app].
  rewrite parseLine_closeFence by assumption.
  reflexivity.
Qed.

(** C1, as the code has it.  Take a text in which, at a point where an
    examples section is current and no fence is open, the heading line
    [### ❌ Bad: missing assertions] is followed by a fenced code block whose
    lines are neither headings nor fences.  The package [fromAgentsMd]
    returns then has an examples section, titled as the current one, that
    holds the example made of that block, with its [good] flag false and
    the description "Bad: missing assertions": the cross is removed, the
    label "Bad:" is not among the labels the parser removes. *)
Theorem bad_heading_example content metadata before fence code after st cs :
  split_lines (snd (parseFrontmatter yaml_load content))
  = before ++ ([badHeading; fence] ++ code ++ [lit "```"]) ++ after ->
  parseLoop (split_lines (snd (parseFrontmatter yaml_load content))) 0
            before initialState = inr st ->
  currentSection st = Some cs ->
  ps_type cs = examples ->
  inCodeBlock st = false ->
  startsWith fence (lit "```") = true ->
  forallb plainLine code = true ->
  exists pkg examples,
    fromAgentsMd yaml_load content metadata = inr pkg
    /\ In (ExamplesSection (ps_title cs) (Some examples))
          (cc_sections (pkg_content pkg))
    /\ In {| ex_description := lit "Bad: missing assertions";
             ex_code := join nl code;
             ex_language := fenceLanguage fence;
             ex_good := Some false |} examples.
Proof.
  intros Hsplit Hreach Hc Ht Hin Hf Hcode.
  unfold fromAgentsMd, parseMarkdown.
  destruct (parseFrontmatter yaml_load content) as [fm body].
  cbn [snd] in Hsplit, Hreach.
  remember (split_lines body) as lines eqn:Hlines. clear Hlines.
  assert (Hwf : wfState st = true).
  { destruct (parseLoop_total lines before 0 initialState eq_refl)
      as (st0 & E0 & W0).
    rewrite Hreach in E0. injection E0 as <-. exact W0. }
  set (example := {| ex_description := lit "Bad: missing assertions";
                     ex_code := join nl code;
                     ex_language := fenceLanguage fence;
                     ex_good := Some false |}).
  set (st2 := {| sections := sections st;
                 currentSection := Some (pushExample cs example);
                 inCodeBlock := false;
                 currentCodeBlock := None |}).
  assert (Hwf2 : wfState st2 = true).
  { unfold wfState, wfParsed, st2, pushExample. proj_simpl.
    rewrite Ht. reflexivity. }
  destruct (parseLoop_total lines after
              (0 + List.length before
               + List.length ([badHeading; fence] ++ code ++ [lit "```"]))
              st2 Hwf2) as (st3 & E3 & _).
  assert (Hscan : parseLoop lines 0 lines initialState = inr st3).
  { rewrite Hsplit at 2.
    rewrite parseLoop_app, Hreach. cbn [bind].
    rewrite parseLoop_app.
    rewrite (parseLoop_bad_heading_block lines _ st cs fence code
               Hc Ht Hwf Hin Hf Hcode).
    cbn [bind]. exact E3. }
  rewrite Hscan. cbn [bind ret].
  assert (Hem : emittedExample (ps_title cs) example (flushSection st3)).
  { apply (parseLoop_keeps_example _ _ _ _ _ _ _ E3). left.
    exists (pushExample cs example).
    exists (match ps_examples cs with Some l => l | None => [] end
            ++ [example]).
    unfold st2, pushExample. proj_simpl.
    repeat split; try assumption.
    apply in_or_app. right. left. reflexivity. }
  destruct Hem as (exs & Hs & He).
  eexists. exists exs. split; [reflexivity|].
  cbn [setTaxonomy pkg_content cc_sections].
  split; [right; exact Hs|exact He].
Qed.

(** C2.  The round-trip text yields, after the metadata section, one context
    section "Project Overview" whose content contains "My Rules" and one
    rules section "Guidelines" with the single rule "Use strict types",
    rationale "fewer runtime errors". *)
Theorem round_trip_scenario :
  forall metadata,
    exists pkg,
      fromAgentsMd yaml_load roundTripInput metadata = inr pkg
      /\ cc_sections (pkg_content pkg)
         = [ metadataSection metadata (pkg_description pkg);
             ContextSection (lit "Project Overview")
                            (lit "My Rules" ++ nl ++ lit "Intro text.");
             RulesSection (lit "Guidelines")
               (Some [ {| rule_content := lit "Use strict types";
                          rule_rationale := Some (lit "fewer runtime errors");
                          rule_examples := None |} ])
               (Some false) ]
      /\ includes (lit "My Rules" ++ nl ++ lit "Intro text.") (lit "My Rules")
         = true.
Proof.
  intros metadata. eexists. split; [reflexivity|]. split; reflexivity.
Qed.


Lemma firstn_incl {A} n : forall (l : list A) x, In x (firstn n l) -> In x l.
Proof.
  induction n as [|n IH]; intros [|a l] x H; cbn in H; try contradiction.
  destruct H as [<-|H]; [left; reflexivity|right; apply IH; assumption].
Qed.

Lemma inferTags_sound body t :
  In t (inferTags body) ->
  (In t techKeywords /\ includes (toLowerCase body) t = true)
  \/ (t = lit "codex"
      /\ (includes (toLowerCase body) (lit "codex")
          || includes (toLowerCase body) (lit "openai")) = true).
Proof.
  unfold inferTags. intros H. apply firstn_incl in H.
  destruct (includes (toLowerCase body) (lit "codex")
            || includes (toLowerCase body) (lit "openai")) eqn:C.
  - apply in_app_or in H. destruct H as [H|[<-|[]]].
    + left. apply filter_In in H. exact H.
    + right. split; reflexivity.
  - left. apply filter_In in H. exact H.
Qed.

(** C6, as the code has it.  When the caller supplies tags, the tags of the
    package are exactly those and nothing is inferred.  Otherwise they are
    "agents.md" followed by the inferred tags: at most five, each a keyword
    of the vocabulary found in the lower-cased body, or "codex" when the body
    mentions "codex" or "openai". *)
Theorem tags_supplied_or_inferred :
  forall content metadata,
    exists pkg,
      fromAgentsMd yaml_load content metadata = inr pkg
      /\ pkg_tags pkg
         = match pm_tags metadata with
           | Some tags => tags
           | None => lit "agents.md"
                     :: inferTags (snd (parseFrontmatter yaml_load content))
           end
      /\ (List.length
            (inferTags (snd (parseFrontmatter yaml_load content))) <= 5)%nat
      /\ forall t,
           In t (inferTags (snd (parseFrontmatter yaml_load content))) ->
           (In t techKeywords
            /\ includes
                 (toLowerCase (snd (parseFrontmatter yaml_load content))) t
               = true)
           \/ (t = lit "codex"
               /\ (includes
                     (toLowerCase (snd (parseFrontmatter yaml_load content)))
                     (lit "codex")
                   || includes
                        (toLowerCase
                           (snd (parseFrontmatter yaml_load content)))
                        (lit "openai")) = true).
Proof.
  intros content metadata.
  destruct (fromAgentsMd_ok content metadata) as (pkg & secs & E & _ & _ & T).
  exists pkg. split; [assumption|]. split; [assumption|]. split.
  - unfold inferTags. apply firstn_le_length.
  - apply inferTags_sound.
Qed.

(** C7.  Parsing never raises, whatever the text, and the package returned
    always starts with the metadata section built from the supplied name.
    For the empty string and for a text that is only front matter it is the
    only section; a text whose code fence never closes still gives the
    metadata section and the section the fence was in. *)
Theorem fromAgentsMd_never_raises :
  (forall content metadata,
      exists pkg description body,
        fromAgentsMd yaml_load content metadata = inr pkg
        /\ cc_sections (pkg_content pkg)
           = MetadataSection
               (Some {| md_title := Some (pm_name metadata);
                        md_description := Some description;
                        md_icon := None |}) :: body)
  /\ (forall metadata,
         exists pkg,
           fromAgentsMd yaml_load [] metadata = inr pkg
           /\ cc_sections (pkg_content pkg)
              = [metadataSection metadata (pkg_description pkg)])
  /\ (forall metadata,
         exists pkg,
           fromAgentsMd yaml_load frontMatterOnly metadata = inr pkg
           /\ cc_sections (pkg_content pkg)
              = [metadataSection metadata (pkg_description pkg)])
  /\ (forall metadata,
         exists pkg,
           fromAgentsMd yaml_load unclosedFence metadata = inr pkg
           /\ cc_sections (pkg_content pkg)
              = [metadataSection metadata (pkg_description pkg);
                 ExamplesSection (lit "Notes") (Some [])]).
Proof.
  split; [|split; [|split]].
  - intros content metadata.
    destruct (fromAgentsMd_ok content metadata) as (pkg & secs & E & _ & S & _).
    exists pkg, (pkg_description pkg), secs. split; assumption.
  - intros metadata. eexists. split; reflexivity.
  - intros metadata.
    assert (M : matchFrontmatter frontMatterOnly
                = Some (lit "project: demo", [])) by reflexivity.
    unfold fromAgentsMd, parseFrontmatter. rewrite M.
    destruct (yaml_load (lit "project: demo")); eexists; split; reflexivity.
  - intros metadata. eexists. split; reflexivity.
Qed.

(** C10.  Every rules section the parser produces is recorded as unordered;
    so is the one read from a text whose items are numbered. *)
Theorem parsed_rules_are_unordered :
  (forall content metadata,
      exists pkg,
        fromAgentsMd yaml_load content metadata = inr pkg
        /\ forallb rulesUnordered (cc_sections (pkg_content pkg)) = true)
  /\ (forall metadata,
         exists pkg,
           fromAgentsMd yaml_load numberedInput metadata = inr pkg
           /\ cc_sections (pkg_content pkg)
              = [ metadataSection metadata (pkg_description pkg);
                  RulesSection (lit "Steps")
                    (Some [ {| rule_content := lit "1. Install";
                               rule_rationale := None;
                               rule_examples := None |};
                            {| rule_content := lit "2. Build";
                               rule_rationale := None;
                               rule_examples := None |} ])
                    (Some false) ]).
Proof.
  split.
  - intros content metadata.
    destruct (fromAgentsMd_ok content metadata) as (pkg & secs & E & Hb & S & _).
    exists pkg. split; [assumption|]. rewrite S.
    cbn [forallb metadataSection rulesUnordered andb].
    apply forallb_forall. intros s Hs.
    apply isBuilt_unordered. rewrite Forall_forall in Hb. auto.
  - intros metadata. eexists. split; reflexivity.
Qed.

End ParserClaims.

(** ** Concrete inputs *)

Lemma bad_heading_example_witness :
  exists pkg examples,
    FromAgentsMd.fromAgentsMd noYaml polarityInput bareMetadata = inr pkg
    /\ In (ExamplesSection (FromAgentsMd.ps_title examplesOpened)
                           (Some examples))
          (cc_sections (pkg_content pkg))
    /\ In {| ex_description := lit "Bad: missing assertions";
             ex_code := join nl [lit "expect(run())"];
             ex_language := fenceLanguage (lit "```ts");
             ex_good := Some false |} examples.
Proof.
  apply (bad_heading_example noYaml polarityInput bareMetadata
           [lit "## Examples"; []] (lit "```ts") [lit "expect(run())"] [[]]
           (opened examplesOpened) examplesOpened); reflexivity.
Defined.

(** C1 as stated fails: on [polarityInput] no example has the description
    "missing assertions". *)
Lemma polarity_scenario_fails :
  ~ (exists pkg title examples example,
        FromAgentsMd.fromAgentsMd noYaml polarityInput bareMetadata = inr pkg
        /\ In (ExamplesSection title (Some examples))
              (cc_sections (pkg_content pkg))
        /\ In example examples
        /\ ex_description example = lit "missing assertions"
        /\ ex_good example = Some false).
Proof.
  intros (pkg & title & exs & ex & E & Hs & He & Hd & _).
  vm_compute in E. injection E as <-.
  cbn [cc_sections pkg_content In] in Hs.
  destruct Hs as [Hs|[Hs|[]]]; [discriminate Hs|].
  injection Hs as <- <-.
  destruct He as [<-|[]]. vm_compute in Hd. discriminate Hd.
Qed.



(** C6 as stated fails: with caller tags ["custom"] and a body that mentions
    TypeScript, the tags are ["custom"] alone, not the union. *)
Lemma caller_tags_not_united :
  exists pkg,
    FromAgentsMd.fromAgentsMd noYaml (lit "Use TypeScript") taggedMetadata
    = inr pkg
    /\ pkg_tags pkg = [lit "custom"]
    /\ In (lit "typescript")
          (tagsPerSpec taggedMetadata (lit "Use TypeScript"))
    /\ ~ In (lit "typescript") (pkg_tags pkg).
Proof.
  eexists. split; [reflexivity|]. split; [reflexivity|]. split.
  - vm_compute. right. left. reflexivity.
  - vm_compute. intros [H|[]]. discriminate H.
Qed.

(* ================================================================== *)
(** * The Cursor converter                                              *)
(* ================================================================== *)

Section ConverterFacts.

Import Exn ToCursor.

Lemma convertSection_shaped s warnings :
  wellShaped s = true ->
  convertSection s warnings
  = (warnings ++ sectionWarnings s, inr (rendered s)).
Proof.
  unfold sectionWarnings, rendered.
  destruct s as [[d|]|t c p|t [its|] o|t [exs|]|[d|]|t c|tools|e c|ty];
    cbn [wellShaped]; intros W; try discriminate W;
    cbn [convertSection convertMetadata convertRules convertExamples
         convertPersona lift warnAndSkip ret fst snd app];
    rewrite ?app_nil_r; try reflexivity.
  destruct (negb (truthy_opt e) || jseqb (or_else e []) (lit "cursor"));
    cbn [lift warnAndSkip ret fst snd app]; rewrite ?app_nil_r; reflexivity.
Qed.

Lemma convertSection_fault s warnings :
  wellShaped s = false ->
  exists site, convertSection s warnings = (warnings, inl (TypeError site)).
Proof.
  destruct s as [[d|]|t c p|t [its|] o|t [exs|]|[d|]|t c|tools|e c|ty];
    cbn [wellShaped]; intros W; try discriminate W;
    eexists; reflexivity.
Qed.

Lemma keptSections_cons s sections :
  keptSections (s :: sections)
  = if truthy (rendered s) then s :: keptSections sections
    else keptSections sections.
Proof. reflexivity. Qed.

Lemma blocks_cons s sections :
  blocks (s :: sections)
  = (if truthy (rendered s) then [rendered s; []] else []) ++ blocks sections.
Proof.
  unfold blocks. rewrite keptSections_cons.
  destruct (truthy (rendered s)); reflexivity.
Qed.



(** The loop on sections none of which makes a renderer raise. *)
Lemma convertLoop_shaped sections : forall lines warnings,
  forallb wellShaped sections = true ->
  convertLoop sections lines warnings
  = (warnings ++ flat_map sectionWarnings sections,
     inr (lines ++ blocks sections)).
Proof.
  induction sections as [|s sections IH]; intros lines warnings W.
  - cbn. rewrite !app_nil_r. reflexivity.
  - cbn [forallb] in W. apply andb_prop in W. destruct W as [Ws W].
    cbn [convertLoop]. rewrite (convertSection_shaped s warnings Ws).
    rewrite IH by assumption. rewrite blocks_cons.
    cbn [flat_map]. rewrite <- !app_assoc.
    destruct (truthy (rendered s)); rewrite <- ?app_assoc; reflexivity.
Qed.

(** The loop on sections one of which does: it raises, with the warnings
    pushed until then. *)
Lemma convertLoop_fault sections : forall lines warnings,
  forallb wellShaped sections = false ->
  exists earlier site,
    convertLoop sections lines warnings
    = (warnings ++ earlier, inl (TypeError site)).
Proof.
  induction sections as [|s sections IH]; intros lines warnings W.
  - discriminate W.
  - cbn [forallb] in W. cbn [convertLoop].
    destruct (wellShaped s) eqn:Ws.
    + rewrite (convertSection_shaped s warnings Ws).
      cbn [andb] in W.
      destruct (IH (if truthy (rendered s)
                    then lines ++ [rendered s; []] else lines)
                   (warnings ++ sectionWarnings s) W)
        as (earlier & site & E).
      rewrite E. exists (sectionWarnings s ++ earlier), site.
      rewrite app_assoc. reflexivity.
    + destruct (convertSection_fault s warnings Ws) as (site & E).
      rewrite E. exists [], site. rewrite app_nil_r. reflexivity.
Qed.

Lemma isLossyWarning_iff w :
  isLossyWarning w = true
  <-> includes w (lit "not supported") = true
      \/ includes w (lit "skipped") = true.
Proof. unfold isLossyWarning. apply orb_true_iff. Qed.

Lemma skipped_renders_nothing s : skippedKind s = true -> rendered s = [].
Proof.
  unfold rendered.
  destruct s as [[d|]|t c p|t [its|] o|t [exs|]|[d|]|t c|tools|e c|ty];
    cbn [skippedKind]; intros K; try discriminate K; try reflexivity.
  cbn [convertSection].
  apply andb_prop in K. destruct K as [K1 K2].
  rewrite K1. apply negb_true_iff in K2. rewrite K2. reflexivity.
Qed.

Variable typeErrorMessage : FaultSite -> jsstring.

(** The result on a package none of whose sections makes a renderer
    raise. *)
Lemma toCursor_shaped pkg cursorConfig :
  forallb wellShaped (cc_sections (pkg_content pkg)) = true ->
  toCursor typeErrorMessage pkg cursorConfig
  = let warnings := flat_map sectionWarnings (cc_sections (pkg_content pkg)) in
    {| res_content :=
         generateMDCHeader pkg cursorConfig ++ nl ++ nl
         ++ trim (join nl (blocks (cc_sections (pkg_content pkg))));
       res_format := lit "cursor";
       res_warnings :=
         match warnings with [] => None | _ :: _ => Some warnings end;
       res_lossyConversion := existsb isLossyWarning warnings;
       res_qualityScore :=
         if existsb isLossyWarning warnings then (100 - 10)%Z else 100%Z |}.
Proof.
  intros W. unfold toCursor, convertContent.
  rewrite (convertLoop_shaped _ [] [] W). reflexivity.
Qed.

Lemma toCursor_fault pkg cursorConfig :
  forallb wellShaped (cc_sections (pkg_content pkg)) = false ->
  exists earlier site,
    toCursor typeErrorMessage pkg cursorConfig
    = {| res_content := [];
         res_format := lit "cursor";
         res_warnings :=
           Some (earlier
                 ++ [lit "Conversion error: " ++ typeErrorMessage site]);
         res_lossyConversion := true;
         res_qualityScore := 0%Z |}.
Proof.
  intros W. unfold toCursor, convertContent.
  destruct (convertLoop_fault _ [] [] W) as (earlier & site & E).
  rewrite E. exists earlier, site. reflexivity.
Qed.

Lemma warningsOf_shaped (warnings : list jsstring) :
  match match warnings with [] => None | _ :: _ => Some warnings end with
  | Some ws => ws
  | None => []
  end = warnings.
Proof. destruct warnings; reflexivity. Qed.

(** C4, as the code has it.  The quality rule of [toCursor], for every
    package.  A warning is lossy exactly when it contains "not supported" or
    "skipped"; a lossy warning makes the conversion lossy with a score under
    100; a conversion that is not lossy scores 100.  When no renderer raises,
    which is so for every package that conforms to the type declarations,
    the conversion is lossy exactly when a lossy warning exists, the score is
    then 100 less the fixed 10, and otherwise (no warning, or only warnings
    that are not lossy) it is 100.  When a renderer raises, the result is
    empty, lossy and scores 0, whatever the warnings. *)
Theorem quality_scoring_rule pkg cursorConfig :
  (forall w,
      isLossyWarning w = true
      <-> includes w (lit "not supported") = true
          \/ includes w (lit "skipped") = true)
  /\ ((exists w,
          In w (warningsOf (toCursor typeErrorMessage pkg cursorConfig))
          /\ isLossyWarning w = true) ->
      res_lossyConversion (toCursor typeErrorMessage pkg cursorConfig) = true
      /\ (res_qualityScore (toCursor typeErrorMessage pkg cursorConfig)
          < 100)%Z)
  /\ (res_lossyConversion (toCursor typeErrorMessage pkg cursorConfig) = false
      -> res_qualityScore (toCursor typeErrorMessage pkg cursorConfig)
         = 100%Z)
  /\ (forallb wellShaped (cc_sections (pkg_content pkg)) = true ->
      res_lossyConversion (toCursor typeErrorMessage pkg cursorConfig)
      = existsb isLossyWarning
          (warningsOf (toCursor typeErrorMessage pkg cursorConfig))
      /\ res_qualityScore (toCursor typeErrorMessage pkg cursorConfig)
         = if existsb isLossyWarning
                (warningsOf (toCursor typeErrorMessage pkg cursorConfig))
           then (100 - 10)%Z else 100%Z)
  /\ (forallb wellShaped (cc_sections (pkg_content pkg)) = false ->
      res_content (toCursor typeErrorMessage pkg cursorConfig) = []
      /\ res_lossyConversion (toCursor typeErrorMessage pkg cursorConfig)
         = true
      /\ res_qualityScore (toCursor typeErrorMessage pkg cursorConfig)
         = 0%Z).
Proof.
  split; [exact isLossyWarning_iff|].
  destruct (forallb wellShaped (cc_sections (pkg_content pkg))) eqn:W.
  - rewrite (toCursor_shaped pkg cursorConfig W).
    cbv zeta. unfold warningsOf.
    cbn [res_warnings res_lossyConversion res_qualityScore].
    rewrite warningsOf_shaped.
    set (warnings :=
           flat_map sectionWarnings (cc_sections (pkg_content pkg))).
    split; [|split; [|split]].
    + intros (w & Hin & Hl).
      assert (E : existsb isLossyWarning warnings = true)
        by (apply existsb_exists; exists w; split; assumption).
      rewrite E. split; [reflexivity|lia].
    + intros E. rewrite E. reflexivity.
    + intros _. split; reflexivity.
    + intros F. discriminate F.
  - destruct (toCursor_fault pkg cursorConfig W) as (earlier & site & ->).
    cbn [res_content res_lossyConversion res_qualityScore].
    split; [|split; [|split]].
    + intros _. split; [reflexivity|lia].
    + intros F. discriminate F.
    + intros F. discriminate F.
    + intros _. repeat split.
Qed.

(** Whatever the package, also when a renderer raises: a lossy warning makes
    the conversion lossy with a score under 100, and a conversion that is
    not lossy scores 100. *)
Lemma lossy_flag_monotonic pkg cursorConfig :
  ((exists w,
       In w (warningsOf (toCursor typeErrorMessage pkg cursorConfig))
       /\ isLossyWarning w = true) ->
   res_lossyConversion (toCursor typeErrorMessage pkg cursorConfig) = true
   /\ (res_qualityScore (toCursor typeErrorMessage pkg cursorConfig)
       < 100)%Z)
  /\ (res_lossyConversion (toCursor typeErrorMessage pkg cursorConfig) = false
      -> res_qualityScore (toCursor typeErrorMessage pkg cursorConfig)
         = 100%Z).
Proof.
  destruct (forallb wellShaped (cc_sections (pkg_content pkg))) eqn:W.
  - rewrite (toCursor_shaped pkg cursorConfig W).
    cbv zeta. unfold warningsOf.
    cbn [res_warnings res_lossyConversion res_qualityScore].
    rewrite warningsOf_shaped. split.
    + intros (w & Hin & Hl).
      assert (E : existsb isLossyWarning
                    (flat_map sectionWarnings (cc_sections (pkg_content pkg)))
                  = true)
        by (apply existsb_exists; exists w; split; assumption).
      rewrite E. split; [reflexivity|lia].
    + intros E. rewrite E. reflexivity.
  - destruct (toCursor_fault pkg cursorConfig W) as (earlier & site & ->).
    cbn [res_lossyConversion res_qualityScore].
    split; [intros _; split; [reflexivity|lia]|discriminate].
Qed.


(** The package of the test "should handle conversion errors gracefully"
    holds one metadata section whose data is a title and a description; no
    renderer raises on it, and the score is 100. *)
Remark error_test_package_converts pkg cursorConfig :
  cc_sections (pkg_content pkg)
  = [MetadataSection (Some {| md_title := Some (lit "test");
                              md_description := Some (lit "test");
                              md_icon := None |})] ->
  res_qualityScore (toCursor typeErrorMessage pkg cursorConfig) = 100%Z
  /\ res_lossyConversion (toCursor typeErrorMessage pkg cursorConfig) = false
  /\ res_warnings (toCursor typeErrorMessage pkg cursorConfig) = None.
Proof.
  intros S.
  assert (W : forallb wellShaped (cc_sections (pkg_content pkg)) = true)
    by (rewrite S; reflexivity).
  rewrite (toCursor_shaped pkg cursorConfig W), S.
  repeat split; reflexivity.
Qed.

End ConverterFacts.

(** C4 as stated fails where a renderer raises.  With a metadata section
    that has no data, the only warning is the one of the fault, which is not
    lossy, and the score is 0, not 100; with a tools section before it there
    is a lossy warning and the score is 0, not 90. *)
Lemma fault_breaks_quality_rule :
  forallb (fun w => negb (ToCursor.isLossyWarning w))
          (warningsOf (ToCursor.toCursor v8Message
                         (samplePackage [MetadataSection None]) None))
  = true
  /\ res_qualityScore (ToCursor.toCursor v8Message
                         (samplePackage [MetadataSection None]) None)
     = 0%Z
  /\ existsb ToCursor.isLossyWarning
             (warningsOf (ToCursor.toCursor v8Message
                            (samplePackage faultySections) None))
     = true
  /\ res_qualityScore (ToCursor.toCursor v8Message
                         (samplePackage faultySections) None)
     = 0%Z.
Proof. repeat split. Qed.


(* ================================================================== *)
(** * The Kiro converter                                                *)
(* ================================================================== *)

Section KiroFacts.

Import ToKiro.

Variable renderKiro :
  CanonicalPackage -> Inclusion -> KiroConfig -> ConversionResult.

(** C3.  Without an inclusion mode [toKiro] raises, and the message names the
    inclusion mode; with the mode [fileMatch] and no pattern it raises, and
    the message names "fileMatchPattern".  In both cases no result is
    returned. *)
Theorem toKiro_fails_fast pkg :
  (forall kiroConfig,
      ToCursor.opt_field kiroConfig inclusion = None ->
      exists message,
        toKiro renderKiro pkg kiroConfig = inl (ConfigError message)
        /\ includes message (lit "inclusion mode") = true)
  /\ (forall config,
         inclusion config = Some fileMatch ->
         fileMatchPattern config = None ->
         exists message,
           toKiro renderKiro pkg (Some config) = inl (ConfigError message)
           /\ includes message (lit "fileMatchPattern") = true).
Proof.
  split.
  - intros [config|] H; cbn in H; unfold toKiro; [rewrite H|];
      eexists; split; reflexivity.
  - intros config Hi Hp. unfold toKiro. rewrite Hi, Hp.
    eexists; split; reflexivity.
Qed.

End KiroFacts.

(* ================================================================== *)
(** * Sanity checks of the embedding on concrete values                 *)
(* ================================================================== *)

Example lit_utf16 :
  lit "❌ Bad" = [10060; 32; 66; 97; 100]%N
  /\ lit "🧪" = [55358; 56810]%N.
Proof. split; reflexivity. Qed.

Example split_lines_keeps_empty_lines :
  split_lines (lit "a" ++ nl ++ nl ++ lit "b" ++ nl)
  = [lit "a"; []; lit "b"; []]
  /\ split_lines [] = [[]].
Proof. split; reflexivity. Qed.

Example trim_both_ends : trim (lit "  a b  ") = lit "a b".
Proof. reflexivity. Qed.

Example ofNat_decimal : ofNat 12 = lit "12" /\ ofNat 0 = lit "0".
Proof. split; reflexivity. Qed.

Example toLowerCase_ascii : toLowerCase (lit "TypeScript") = lit "typescript".
Proof. reflexivity. Qed.

Example matchOrdinal_cases :
  FromAgentsMd.matchOrdinal (lit "12. twelve") = true
  /\ FromAgentsMd.matchOrdinal (lit "1.two") = false
  /\ FromAgentsMd.matchOrdinal (lit ". dot") = false.
Proof. repeat split; reflexivity. Qed.

Example stripListMarker_cases :
  FromAgentsMd.stripListMarker (lit "-  item") = lit "item"
  /\ FromAgentsMd.stripListMarker (lit "1. first") = lit "1. first"
  /\ FromAgentsMd.stripListMarker (lit "7 seven") = lit "seven".
Proof. repeat split; reflexivity. Qed.

Example stripPolarityLabel_cases :
  FromAgentsMd.stripPolarityLabel (lit "Avoid: any") = lit "any"
  /\ FromAgentsMd.stripPolarityLabel (lit "don't: shout") = lit "shout"
  /\ FromAgentsMd.stripPolarityLabel (lit "DO: this") = lit "this"
  /\ FromAgentsMd.stripPolarityLabel (lit "Bad: that") = lit "Bad: that".
Proof. repeat split; reflexivity. Qed.

Example unquoteExample_cases :
  FromAgentsMd.unquoteExample (lit "Example: `x = 1` here") = lit "x = 1 here"
  /\ FromAgentsMd.unquoteExample (lit "Example: plain") = lit "Example: plain".
Proof. split; reflexivity. Qed.

Example matchFrontmatter_cases :
  FromAgentsMd.matchFrontmatter (lit "---" ++ nl ++ lit "---" ++ nl) = None
  /\ FromAgentsMd.matchFrontmatter
       (lit "---" ++ nl ++ lit "a: 1" ++ nl ++ lit "---" ++ nl ++ lit "# T")
     = Some (lit "a: 1", lit "# T").
Proof. split; reflexivity. Qed.

Example inferTags_keeps_five :
  FromAgentsMd.inferTags
    (lit "TypeScript and JavaScript, Python, React, testing the API of Codex")
  = [lit "typescript"; lit "javascript"; lit "python"; lit "react";
     lit "testing"].
Proof. reflexivity. Qed.

Example ordered_rules_are_numbered :
  ToCursor.convertRules (lit "Steps")
    (Some [ {| rule_content := lit "Install"; rule_rationale := None;
               rule_examples := None |};
            {| rule_content := lit "Build";
               rule_rationale := Some (lit "needed");
               rule_examples := Some [lit "make"] |} ])
    (Some true)
  = inr (join nl [ lit "## Steps"; []; lit "1. Install"; lit "2. Build";
                   lit "   - *Rationale: needed*";
                   lit "   - Example: `make`" ]).
Proof. reflexivity. Qed.

Example tools_section_is_skipped :
  ToCursor.toCursor v8Message (samplePackage lossySections) None
  = {| res_content :=
         join nl [ lit "---"; lit "alwaysApply: false";
                   lit "# title: " ++ [34%N] ++ lit "minimal" ++ [34%N];
                   lit "---"; [];
                   lit "# Minimal Rule"; []; lit "A minimal rule"; [];
                   lit "## Instructions"; []; lit "Be careful." ];
       res_format := lit "cursor";
       res_warnings := Some [lit "Tools section skipped (Claude-specific)"];
       res_lossyConversion := true;
       res_qualityScore := 90%Z |}.
Proof. reflexivity. Qed.

Example header_with_globs_and_tags :
  ToCursor.generateMDCHeader (samplePackage [])
    (Some {| ToCursor.cfg_version := Some (lit "2.0");
             ToCursor.cfg_globs := Some [lit "src/**"; lit "*.ts"];
             ToCursor.cfg_alwaysApply := Some true;
             ToCursor.cfg_author := None;
             ToCursor.cfg_tags := Some [lit "a"] |})
  = join nl [ lit "---"; lit "globs:";
              lit "  - " ++ [34%N] ++ lit "src/**" ++ [34%N];
              lit "  - " ++ [34%N] ++ lit "*.ts" ++ [34%N];
              lit "alwaysApply: true";
              lit "# title: " ++ [34%N] ++ lit "minimal" ++ [34%N];
              lit "# version: " ++ [34%N] ++ lit "2.0" ++ [34%N];
              lit "# tags:";
              lit "#   - " ++ [34%N] ++ lit "a" ++ [34%N];
              lit "---" ].
Proof. reflexivity. Qed.

Example persona_rendering :
  ToCursor.convertPersona
    (Some {| pd_name := Some (lit "TestBot");
             pd_role := Some (lit "Testing Assistant");
             pd_icon := Some (lit "🤖");
             pd_style := Some [lit "precise"; lit "thorough"; lit "helpful"];
             pd_expertise := Some [lit "unit testing"] |})
  = inr (join nl [ lit "## Role"; [];
                   lit "🤖 **TestBot** - Testing Assistant"; [];
                   lit "**Style:** precise, thorough, helpful"; [];
                   lit "**Expertise:**"; lit "- unit testing" ]).
Proof. reflexivity. Qed.

Example examples_rendering :
  ToCursor.convertExamples (lit "Code Examples")
    (Some [ {| ex_description := lit "Missing assertions";
               ex_code := lit "run()";
               ex_language := Some (lit "typescript");
               ex_good := Some false |} ])
  = inr (join nl [ lit "## Code Examples"; [];
                   lit "### ❌ Bad: Missing assertions"; [];
                   lit "```typescript"; lit "run()"; lit "```"; [] ]).
Proof. reflexivity. Qed.

(* ================================================================== *)
(** * The line scanner: headings, fences and list items                 *)
(* ================================================================== *)

Section ScannerStructure.

Import Exn FromAgentsMd.

Lemma buildSection_title cs : sectionTitle (buildSection cs) = Some (ps_title cs).
Proof. unfold buildSection. destruct (ps_type cs); reflexivity. Qed.

Lemma flushSection_titles st : map sectionTitle (flushSection st) = titles st.
Proof.
  unfold flushSection, titles. destruct (currentSection st) as [cs|].
  - rewrite map_app. cbn [map]. rewrite buildSection_title. reflexivity.
  - rewrite app_nil_r. reflexivity.
Qed.

(** A heading line closes the current section and opens one with its title;
    no other line changes the titles. *)
Lemma parseLine_titles lines i line st st' :
  parseLine lines i line st = inr st' ->
  titles st'
  = titles st ++ (if isHeading line then [Some (headingTitle line)] else []).
Proof.
  unfold isHeading, headingTitle.
  destruct st as [secs cur inb cb]. unfold parseLine. proj_simpl.
  destruct (startsWith line (lit "# ")) eqn:H1;
    [|destruct (startsWith line (lit "## ")) eqn:H2]; cbn [orb].
  - intros H; injection H as <-. unfold titles, flushSection; proj_simpl.
    destruct cur as [cs|]; rewrite ?map_app, ?app_nil_r; cbn [map];
      rewrite ?buildSection_title; reflexivity.
  - intros H; injection H as <-. unfold titles, flushSection; proj_simpl.
    destruct cur as [cs|]; rewrite ?map_app, ?app_nil_r; cbn [map];
      rewrite ?buildSection_title; reflexivity.
  - rewrite app_nil_r.
    split_ifs; intros H; try discriminate H; injection H as <-;
      unfold titles; proj_simpl; reflexivity.
Qed.

Lemma parseLoop_titles lines rest : forall i st st',
  parseLoop lines i rest st = inr st' ->
  titles st'
  = titles st ++ map (fun line => Some (headingTitle line))
                     (filter isHeading rest).
Proof.
  induction rest as [|line rest IH]; intros i st st' H.
  - injection H as <-. cbn. rewrite app_nil_r. reflexivity.
  - cbn [parseLoop] in H.
    destruct (parseLine lines i line st) as [e|st1] eqn:E; [discriminate H|].
    cbn [bind] in H. rewrite (IH _ _ _ H), (parseLine_titles _ _ _ _ _ E).
    cbn [filter]. destruct (isHeading line); cbn [map];
      rewrite <- app_assoc; reflexivity.
Qed.

Lemma map_eq_nil_inv {A B} (f : A -> B) l : map f l = [] -> l = [].
Proof. destruct l; [reflexivity|discriminate]. Qed.

Lemma filter_none {A} (p : A -> bool) l :
  forallb (fun a => negb (p a)) l = true -> filter p l = [].
Proof.
  induction l as [|a l IH]; [reflexivity|].
  cbn [forallb filter]. intros H. apply andb_prop in H. destruct H as [Ha Hl].
  apply negb_true_iff in Ha. rewrite Ha. apply IH. exact Hl.
Qed.

(** X1.  The sections [parseMarkdown] returns are, in order, one per heading
    line of the text (lines starting with "# " or "## ", also inside a code
    fence): a "# " line gives a section titled "Project Overview", a "## "
    line a section titled with the trimmed rest of the line. *)
Theorem section_titles_follow_headings :
  forall content,
    exists secs,
      parseMarkdown content = inr secs
      /\ map sectionTitle secs
         = map (fun line => Some (headingTitle line))
               (filter isHeading (split_lines content))
      /\ List.length secs
         = List.length (filter isHeading (split_lines content)).
Proof.
  intros content. unfold parseMarkdown.
  destruct (parseLoop_total (split_lines content) (split_lines content) 0
              initialState eq_refl) as (st & E & _).
  rewrite E. cbn [bind]. eexists. split; [reflexivity|].
  assert (T : map sectionTitle (flushSection st)
              = map (fun line => Some (headingTitle line))
                    (filter isHeading (split_lines content))).
  { rewrite flushSection_titles, (parseLoop_titles _ _ _ _ _ E).
    reflexivity. }
  split; [exact T|].
  rewrite <- (length_map sectionTitle), T, length_map. reflexivity.
Qed.

(** X2.  A text without any heading line yields no section at all: list
    items, fences and paragraphs before the first heading are dropped. *)
Theorem text_without_heading_is_dropped content :
  forallb (fun line => negb (isHeading line)) (split_lines content) = true ->
  parseMarkdown content = inr [].
Proof.
  intros H. unfold parseMarkdown.
  destruct (parseLoop_total (split_lines content) (split_lines content) 0
              initialState eq_refl) as (st & E & _).
  rewrite E. cbn [bind]. unfold ret. f_equal.
  apply (map_eq_nil_inv sectionTitle).
  rewrite flushSection_titles, (parseLoop_titles _ _ _ _ _ E).
  cbn [titles initialState sections currentSection map app].
  rewrite (filter_none isHeading _ H). reflexivity.
Qed.

(** An open fence always has its code block. *)
Lemma parseLine_fenceOk lines i line st st' :
  parseLine lines i line st = inr st' ->
  fenceOk st = true -> fenceOk st' = true.
Proof.
  intros H F.
  destruct st as [secs cur [|] [cb|]]; unfold fenceOk in F; proj_simpl;
    try discriminate F; revert H;
    unfold parseLine; proj_simpl;
    split_ifs; intros H; try discriminate H; injection H as <-;
    unfold fenceOk; proj_simpl; reflexivity.
Qed.

Lemma parseLoop_fenceOk lines rest : forall i st st',
  parseLoop lines i rest st = inr st' ->
  fenceOk st = true -> fenceOk st' = true.
Proof.
  induction rest as [|line rest IH]; intros i st st' H F.
  - injection H as <-. exact F.
  - cbn [parseLoop] in H.
    destruct (parseLine lines i line st) as [e|st1] eqn:E; [discriminate H|].
    cbn [bind] in H. apply (IH _ _ _ H). apply (parseLine_fenceOk _ _ _ _ _ E F).
Qed.

(** X3.  Wherever the scanner stands after reading part of a text, if a
    fence is open then a line that is neither a heading nor a fence (a list
    item, say) only goes to the code of the block: the sections emitted and
    the current section stay as they are. *)
Theorem fenced_line_is_code lines before i line st :
  parseLoop lines 0 before initialState = inr st ->
  inCodeBlock st = true ->
  plainLine line = true ->
  exists cb,
    currentCodeBlock st = Some cb
    /\ parseLine lines i line st
       = inr {| sections := sections st;
                currentSection := currentSection st;
                inCodeBlock := true;
                currentCodeBlock :=
                  Some {| cb_description := cb_description cb;
                          cb_code := cb_code cb ++ [line];
                          cb_language := cb_language cb;
                          cb_good := cb_good cb |} |}.
Proof.
  intros R In P.
  pose proof (parseLoop_fenceOk _ _ _ _ _ R eq_refl) as F.
  unfold fenceOk in F. rewrite In in F. cbn [negb orb] in F.
  destruct (currentCodeBlock st) as [cb|] eqn:C; [|discriminate F].
  exists cb. split; [reflexivity|].
  unfold plainLine in P.
  repeat (apply andb_prop in P; destruct P as [P ?]).
  repeat match goal with
         | H : negb _ = true |- _ => apply negb_true_iff in H
         end.
  unfold parseLine.
  repeat match goal with
         | H : startsWith line _ = false |- _ => rewrite H
         end.
  rewrite In, C. reflexivity.
Qed.

End ScannerStructure.

Lemma text_without_heading_is_dropped_witness :
  FromAgentsMd.parseMarkdown
    (join nl [lit "Some notes"; lit "- not a rule"; lit "```"; lit "x"])
  = inr [].
Proof.
  apply (text_without_heading_is_dropped
           (join nl [lit "Some notes"; lit "- not a rule"; lit "```"; lit "x"])).
  reflexivity.
Defined.

Lemma fenced_line_is_code_witness :
  exists cb,
    FromAgentsMd.currentCodeBlock
      {| FromAgentsMd.sections := [];
         FromAgentsMd.currentSection := Some rulesOpened;
         FromAgentsMd.inCodeBlock := true;
         FromAgentsMd.currentCodeBlock :=
           Some {| FromAgentsMd.cb_description := lit "Code example";
                   FromAgentsMd.cb_code := [];
                   FromAgentsMd.cb_language := None;
                   FromAgentsMd.cb_good := None |} |} = Some cb
    /\ FromAgentsMd.parseLine [lit "## Rules"; lit "```"; lit "- item"] 2
         (lit "- item")
         {| FromAgentsMd.sections := [];
            FromAgentsMd.currentSection := Some rulesOpened;
            FromAgentsMd.inCodeBlock := true;
            FromAgentsMd.currentCodeBlock :=
              Some {| FromAgentsMd.cb_description := lit "Code example";
                      FromAgentsMd.cb_code := [];
                      FromAgentsMd.cb_language := None;
                      FromAgentsMd.cb_good := None |} |}
       = inr {| FromAgentsMd.sections := [];
                FromAgentsMd.currentSection := Some rulesOpened;
                FromAgentsMd.inCodeBlock := true;
                FromAgentsMd.currentCodeBlock :=
                  Some {| FromAgentsMd.cb_description :=
                            FromAgentsMd.cb_description cb;
                          FromAgentsMd.cb_code :=
                            FromAgentsMd.cb_code cb ++ [lit "- item"];
                          FromAgentsMd.cb_language :=
                            FromAgentsMd.cb_language cb;
                          FromAgentsMd.cb_good := FromAgentsMd.cb_good cb |} |}.
Proof.
  apply (fenced_line_is_code [lit "## Rules"; lit "```"; lit "- item"]
           [lit "## Rules"; lit "```"] 2 (lit "- item")); reflexivity.
Defined.

(* ================================================================== *)
(** * The line scanner: fenced blocks and list items                    *)
(* ================================================================== *)

Section ScannerBlocks.

Import Exn FromAgentsMd.

Lemma heading3_not_heading h :
  startsWith h (lit "### ") = true ->
  startsWith h (lit "# ") = false /\ startsWith h (lit "## ") = false.
Proof.
  norm_lits. destruct h as [|a [|b [|c r]]]; cbn [startsWith];
    try discriminate;
    rewrite ?andb_false_r; try discriminate.
  destruct (N.eqb_spec a 35) as [->|]; [|discriminate].
  destruct (N.eqb_spec b 35) as [->|]; [|discriminate].
  destruct (N.eqb_spec c 35) as [->|]; [|discriminate].
  intros _. split; reflexivity.
Qed.

Lemma parseLine_heading3 lines i h st :
  startsWith h (lit "### ") = true ->
  parseLine lines i h st
  = inr {| sections := sections st;
           currentSection := currentSection st;
           inCodeBlock := inCodeBlock st;
           currentCodeBlock :=
             Some {| cb_description :=
                       stripPolarityLabel
                         (stripPolarityIcon (trim (substring h 4)));
                     cb_code := [];
                     cb_language := None;
                     cb_good := Some (goodMarker (trim (substring h 4))) |} |}.
Proof.
  intros H. destruct (heading3_not_heading h H) as [H1 H2].
  unfold parseLine. rewrite H1, H2, H. reflexivity.
Qed.





(** X6.  While an examples section (with its examples array) is current and
    no fence is open, a "### " heading line directly followed by a fenced
    block whose lines are neither headings nor fences adds one example: its
    description is the heading text without a leading check mark or cross
    and without a leading label Preferred/Avoid/Do/Don't, and its [good] flag
    is true only when the heading text starts with the check mark or
    contains "preferred" or "do:" in any case.  A heading with none of these
    gives [good = false], which the Cursor renderer prints as a "Bad"
    example. *)
Theorem example_heading_sets_description_and_flag
        lines i st cs h fence code :
  currentSection st = Some cs ->
  ps_type cs = examples ->
  wfState st = true ->
  inCodeBlock st = false ->
  startsWith h (lit "### ") = true ->
  startsWith fence (lit "```") = true ->
  forallb plainLine code = true ->
  parseLoop lines i ([h; fence] ++ code ++ [lit "```"]) st
  = inr {| sections := sections st;
           currentSection :=
             Some (pushExample cs
                     {| ex_description :=
                          stripPolarityLabel
                            (stripPolarityIcon (trim (substring h 4)));
                        ex_code := join nl code;
                        ex_language := fenceLanguage fence;
                        ex_good := Some (goodMarker (trim (substring h 4))) |});
           inCodeBlock := false;
           currentCodeBlock := None |}
  /\ (goodMarker (trim (substring h 4)) = false ->
      hd [] (ToCursor.renderExample
               {| ex_description :=
                    stripPolarityLabel
                      (stripPolarityIcon (trim (substring h 4)));
                  ex_code := join nl code;
                  ex_language := fenceLanguage fence;
                  ex_good := Some (goodMarker (trim (substring h 4))) |})
      = lit "### ❌ Bad: "
        ++ stripPolarityLabel (stripPolarityIcon (trim (substring h 4)))).
Proof.
  intros Hc Ht Hwf Hin Hh Hf Hcode. split.
  - destruct st as [secs cur inb cb]. proj_simpl. subst cur inb.
    unfold wfState in Hwf. proj_simpl.
    cbn [app parseLoop]. rewrite parseLine_heading3 by assumption.
    proj_simpl. cbn [bind].
    rewrite parseLine_openFence by assumption. cbn [bind].
    rewrite parseLoop_app, parseLoop_code by assumption. cbn [bind].
    cbn [parseLoop cb_code cb_description cb_language cb_good app].
    rewrite parseLine_closeFence by assumption.
    reflexivity.
  - intros G. rewrite G. reflexivity.
Qed.

(** ** List items *)

Lemma digit_not_space w : isDigit w = true -> isWhiteSpace w = false.
Proof.
  unfold isDigit, isWhiteSpace. intros H.
  apply andb_prop in H. destruct H as [H1 H2].
  apply N.leb_le in H1. apply N.leb_le in H2.
  repeat (apply orb_false_intro);
    try (apply N.eqb_neq; lia);
    apply andb_false_iff.
  - right. apply N.leb_gt. lia.
  - left. apply N.leb_gt. lia.
Qed.

(** The expression that removes a list marker leaves an ordinal marker in
    place: it wants white space right after the first character. *)
Lemma stripListMarker_ordinal line :
  matchOrdinal line = true -> stripListMarker line = line.
Proof.
  unfold matchOrdinal, stripListMarker.
  destruct line as [|c [|w rest]]; try reflexivity.
  cbn [span]. destruct (isDigit c) eqn:Dc; [|discriminate].
  destruct (isDigit w) eqn:Dw.
  - intros _. rewrite (digit_not_space w Dw), andb_false_r. reflexivity.
  - intros H. destruct rest as [|x rest']; [discriminate H|].
    apply andb_prop in H. destruct H as [H _].
    apply N.eqb_eq in H. subst w. rewrite andb_false_r. reflexivity.
Qed.

Lemma trimStart_idem s : trimStart (trimStart s) = trimStart s.
Proof.
  induction s as [|c s IH]; [reflexivity|].
  cbn [trimStart]. destruct (isWhiteSpace c) eqn:W; [exact IH|].
  cbn [trimStart]. rewrite W. reflexivity.
Qed.

Lemma updateLast_app {A} (f : A -> A) l a :
  updateLast f (l ++ [a]) = l ++ [f a].
Proof.
  induction l as [|b l IH]; [reflexivity|].
  cbn [app updateLast]. rewrite IH.
  destruct l; reflexivity.
Qed.

Lemma updateLast_fixed {A} (f : A -> A) l :
  (forall a, f a = a) -> updateLast f l = l.
Proof.
  intros F. induction l as [|b l IH]; [reflexivity|].
  cbn [updateLast]. rewrite IH, F. destruct l; reflexivity.
Qed.

Lemma startsWith_prefix p s : startsWith (p ++ s) p = true.
Proof.
  induction p as [|c p IH]; [destruct s; reflexivity|].
  cbn [app startsWith]. rewrite N.eqb_refl, IH. reflexivity.
Qed.

(** The step on a list item, in a rules section and outside a fence. *)
Lemma parseLine_listItem lines i line secs cs items cb :
  ps_type cs = rules ->
  ps_items cs = Some items ->
  isListItem line = true ->
  parseLine lines i line
    {| sections := secs; currentSection := Some cs; inCodeBlock := false;
       currentCodeBlock := cb |}
  = inr {| sections := secs;
           currentSection :=
             Some (withItems cs
                     (items ++ [plainRule (trim (stripListMarker line))]));
           inCodeBlock := false; currentCodeBlock := cb |}.
Proof.
  intros T I L.
  pose proof (listItem_plain line L) as P. unfold plainLine in P.
  repeat (apply andb_prop in P; destruct P as [P ?]).
  repeat match goal with
         | H : negb _ = true |- _ => apply negb_true_iff in H
         end.
  destruct cs as [ty t c its exs]. proj_simpl. subst ty its.
  unfold isListItem in L. unfold parseLine. proj_simpl.
  repeat match goal with
         | H : startsWith line _ = false |- _ => rewrite H
         end.
  rewrite L. reflexivity.
Qed.

(** X7.  A numbered item of a rules section becomes a rule whose content is
    the whole trimmed line: the ordinal marker is kept in the content. *)
Theorem numbered_item_keeps_its_number lines i line st cs items :
  currentSection st = Some cs ->
  ps_type cs = rules ->
  ps_items cs = Some items ->
  inCodeBlock st = false ->
  matchOrdinal line = true ->
  parseLine lines i line st
  = inr {| sections := sections st;
           currentSection :=
             Some (withItems cs (items ++ [plainRule (trim line)]));
           inCodeBlock := false;
           currentCodeBlock := currentCodeBlock st |}.
Proof.
  intros Hc Ht Hi Hin Ho.
  destruct st as [secs cur inb cb]. proj_simpl. subst cur inb.
  rewrite (parseLine_listItem lines i line secs cs items cb Ht Hi).
  - rewrite (stripListMarker_ordinal line Ho). reflexivity.
  - unfold isListItem. rewrite Ho. apply orb_true_r.
Qed.

(** X8.  A dash item of a rules section becomes a rule whose content is the
    text after the dash, trimmed at both ends; the rule has no rationale and
    no examples yet. *)
Theorem dash_item_content_is_trimmed lines i text st cs items :
  currentSection st = Some cs ->
  ps_type cs = rules ->
  ps_items cs = Some items ->
  inCodeBlock st = false ->
  parseLine lines i (lit "- " ++ text) st
  = inr {| sections := sections st;
           currentSection :=
             Some (withItems cs (items ++ [plainRule (trim text)]));
           inCodeBlock := false;
           currentCodeBlock := currentCodeBlock st |}.
Proof.
  intros Hc Ht Hi Hin.
  destruct st as [secs cur inb cb]. proj_simpl. subst cur inb.
  rewrite (parseLine_listItem lines i _ secs cs items cb Ht Hi);
    [|unfold isListItem; norm_lits; destruct text; reflexivity].
  change (stripListMarker (lit "- " ++ text)) with (trimStart text).
  unfold trim. rewrite trimStart_idem. reflexivity.
Qed.

(** The step on a sub-bullet, in a rules section that holds a rule and
    outside a fence. *)
Lemma parseLine_subBullet lines i sub secs cs earlier last cb :
  ps_type cs = rules ->
  ps_items cs = Some (earlier ++ [last]) ->
  parseLine lines i (lit "   - " ++ sub)
    {| sections := secs; currentSection := Some cs; inCodeBlock := false;
       currentCodeBlock := cb |}
  = inr {| sections := secs;
           currentSection :=
             Some (withItems cs
                     (earlier ++ [applySubBullet (trim sub) last]));
           inCodeBlock := false; currentCodeBlock := cb |}.
Proof.
  intros T I. destruct cs as [ty t c its exs]. proj_simpl. subst ty its.
  unfold parseLine. proj_simpl.
  change (startsWith (lit "   - " ++ sub) (lit "# ")) with false.
  change (startsWith (lit "   - " ++ sub) (lit "## ")) with false.
  change (startsWith (lit "   - " ++ sub) (lit "### ")) with false.
  change (startsWith (lit "   - " ++ sub) (lit "```")) with false.
  change (startsWith (lit "   - " ++ sub) (lit "- ")) with false.
  change (matchOrdinal (lit "   - " ++ sub)) with false.
  rewrite (startsWith_prefix (lit "   - ") sub).
  change (substring (lit "   - " ++ sub) 5) with sub.
  cbv iota. proj_simpl. cbv iota. unfold withItems. proj_simpl.
  rewrite <- (updateLast_app (applySubBullet (trim sub)) earlier last).
  destruct (earlier ++ [last]) eqn:E; [|reflexivity].
  destruct earlier; discriminate E.
Qed.

(** X9.  In a rules section a sub-bullet "Rationale: ..." or "Why: ..." sets
    the rationale of the rule added last, to the text after the label; the
    rules before it and the number of rules do not change. *)
Theorem rationale_goes_to_last_rule lines i sub st cs earlier last :
  currentSection st = Some cs ->
  ps_type cs = rules ->
  ps_items cs = Some (earlier ++ [last]) ->
  inCodeBlock st = false ->
  startsWith (trim sub) (lit "Rationale:")
  || startsWith (trim sub) (lit "Why:") = true ->
  parseLine lines i (lit "   - " ++ sub) st
  = inr {| sections := sections st;
           currentSection :=
             Some (withItems cs
                     (earlier
                      ++ [{| rule_content := rule_content last;
                             rule_rationale :=
                               Some (stripRationaleLabel (trim sub));
                             rule_examples := rule_examples last |}]));
           inCodeBlock := false;
           currentCodeBlock := currentCodeBlock st |}.
Proof.
  intros Hc Ht Hi Hin Hr.
  destruct st as [secs cur inb cb]. proj_simpl. subst cur inb.
  rewrite (parseLine_subBullet lines i sub secs cs earlier last cb Ht Hi).
  unfold applySubBullet. rewrite Hr. reflexivity.
Qed.

(** X10.  In a rules section that holds a rule, a sub-bullet that starts with
    none of "Rationale:", "Why:" and "Example:" is consumed without a trace:
    it changes no rule and is not added to the content of the section. *)
Theorem other_sub_bullet_is_dropped lines i sub st cs earlier last :
  currentSection st = Some cs ->
  ps_type cs = rules ->
  ps_items cs = Some (earlier ++ [last]) ->
  inCodeBlock st = false ->
  startsWith (trim sub) (lit "Rationale:") = false ->
  startsWith (trim sub) (lit "Why:") = false ->
  startsWith (trim sub) (lit "Example:") = false ->
  parseLine lines i (lit "   - " ++ sub) st = inr st.
Proof.
  intros Hc Ht Hi Hin H1 H2 H3.
  destruct st as [secs cur inb cb]. proj_simpl. subst cur inb.
  rewrite (parseLine_subBullet lines i sub secs cs earlier last cb Ht Hi).
  unfold applySubBullet. rewrite H1, H2, H3. cbn [orb].
  unfold withItems. rewrite <- Hi. destruct cs; reflexivity.
Qed.

Lemma span_until p code : forall c after,
  forallb p code = true -> p c = false ->
  span p (code ++ c :: after) = (code, c :: after).
Proof.
  induction code as [|d code IH]; intros c after H Hc.
  - cbn [app span]. rewrite Hc. reflexivity.
  - cbn [forallb] in H. apply andb_prop in H. destruct H as [Hd H].
    cbn [app span]. rewrite Hd, (IH c after H Hc). reflexivity.
Qed.

Lemma trimEnd_last t d :
  isWhiteSpace d = false -> trimEnd (t ++ [d]) = t ++ [d].
Proof.
  intros H. unfold trimEnd. rewrite rev_app_distr. cbn [rev app trimStart].
  rewrite H. cbn [rev]. rewrite rev_involutive. reflexivity.
Qed.

(** The text of an example sub-bullet whose code is quoted reads back as the
    code. *)
Lemma unquoteExample_quoted code :
  code <> [] ->
  forallb (fun c => negb (c =? 96)%N) code = true ->
  trim (lit "Example: `" ++ code ++ lit "`") = lit "Example: `" ++ code ++ lit "`"
  /\ unquoteExample (lit "Example: `" ++ code ++ lit "`") = code.
Proof.
  intros Hne Hq. split.
  - unfold trim.
    change (trimStart (lit "Example: `" ++ code ++ lit "`"))
      with (lit "Example: `" ++ code ++ lit "`").
    rewrite app_assoc. apply trimEnd_last. reflexivity.
  - unfold unquoteExample.
    change (lit "Example: `" ++ code ++ lit "`")
      with (lit "Example:" ++ (lit " `" ++ code ++ lit "`")) at 1.
    rewrite startsWith_prefix.
    change (trimStart (skipn 8 (lit "Example: `" ++ code ++ lit "`")))
      with (96%N :: code ++ [96%N]).
    cbv iota beta. change (96 =? 96)%N with true. cbv iota.
    rewrite (span_until (fun c => negb (c =? 96)%N) code 96%N [] Hq eq_refl).
    destruct code as [|c code]; [congruence|]. apply app_nil_r.
Qed.

(** X25.  In a rules section a sub-bullet of the form "Example:" followed by
    code between back-quotes adds the code, without the back-quotes, to the
    examples of the rule added last; the rationale of that rule and the
    other rules do not change. *)
Theorem example_sub_bullet_is_unquoted lines i code st cs earlier last :
  currentSection st = Some cs ->
  ps_type cs = rules ->
  ps_items cs = Some (earlier ++ [last]) ->
  inCodeBlock st = false ->
  code <> [] ->
  forallb (fun c => negb (c =? 96)%N) code = true ->
  parseLine lines i (lit "   - " ++ lit "Example: `" ++ code ++ lit "`") st
  = inr {| sections := sections st;
           currentSection :=
             Some (withItems cs
                     (earlier
                      ++ [{| rule_content := rule_content last;
                             rule_rationale := rule_rationale last;
                             rule_examples :=
                               Some (match rule_examples last with
                                     | Some l => l
                                     | None => []
                                     end ++ [code]) |}]));
           inCodeBlock := false;
           currentCodeBlock := currentCodeBlock st |}.
Proof.
  intros Hc Ht Hi Hin Hne Hq.
  destruct (unquoteExample_quoted code Hne Hq) as [T U].
  destruct st as [secs cur inb cb]. proj_simpl. subst cur inb.
  rewrite (parseLine_subBullet lines i _ secs cs earlier last cb Ht Hi).
  rewrite T. unfold applySubBullet. rewrite U.
  change (startsWith (lit "Example: `" ++ code ++ lit "`") (lit "Rationale:"))
    with false.
  change (startsWith (lit "Example: `" ++ code ++ lit "`") (lit "Why:"))
    with false.
  change (lit "Example: `" ++ code ++ lit "`")
    with (lit "Example:" ++ (lit " `" ++ code ++ lit "`")).
  rewrite startsWith_prefix. reflexivity.
Qed.

End ScannerBlocks.



Lemma example_heading_sets_description_and_flag_witness :
  FromAgentsMd.parseLoop [] 1
    ([lit "### Basic usage"; lit "```js"] ++ [lit "run()"] ++ [lit "```"])
    (opened examplesOpened)
  = inr {| FromAgentsMd.sections := [];
           FromAgentsMd.currentSection :=
             Some (pushExample examplesOpened
                     {| ex_description := lit "Basic usage";
                        ex_code := lit "run()";
                        ex_language := Some (lit "js");
                        ex_good := Some false |});
           FromAgentsMd.inCodeBlock := false;
           FromAgentsMd.currentCodeBlock := None |}.
Proof.
  exact (proj1 (example_heading_sets_description_and_flag [] 1
                  (opened examplesOpened) examplesOpened
                  (lit "### Basic usage") (lit "```js") [lit "run()"]
                  eq_refl eq_refl eq_refl eq_refl eq_refl eq_refl eq_refl)).
Defined.

Lemma numbered_item_keeps_its_number_witness :
  FromAgentsMd.parseLine [] 1 (lit "12. Ship it") (opened rulesOpened)
  = inr {| FromAgentsMd.sections := [];
           FromAgentsMd.currentSection :=
             Some (withItems rulesOpened
                     ([] ++ [plainRule (trim (lit "12. Ship it"))]));
           FromAgentsMd.inCodeBlock := false;
           FromAgentsMd.currentCodeBlock := None |}.
Proof.
  apply (numbered_item_keeps_its_number [] 1 (lit "12. Ship it")
           (opened rulesOpened) rulesOpened []); reflexivity.
Defined.

Lemma dash_item_content_is_trimmed_witness :
  FromAgentsMd.parseLine [] 1 (lit "- " ++ lit "  Be kind  ")
    (opened rulesOpened)
  = inr {| FromAgentsMd.sections := [];
           FromAgentsMd.currentSection :=
             Some (withItems rulesOpened
                     ([] ++ [plainRule (trim (lit "  Be kind  "))]));
           FromAgentsMd.inCodeBlock := false;
           FromAgentsMd.currentCodeBlock := None |}.
Proof.
  apply (dash_item_content_is_trimmed [] 1 (lit "  Be kind  ")
           (opened rulesOpened) rulesOpened []); reflexivity.
Defined.

Lemma rationale_goes_to_last_rule_witness :
  FromAgentsMd.parseLine [] 2 (lit "   - " ++ lit "Why: it pays off")
    (opened rulesWithOne)
  = inr {| FromAgentsMd.sections := [];
           FromAgentsMd.currentSection :=
             Some (withItems rulesWithOne
                     ([] ++ [{| rule_content := lit "Be kind";
                                rule_rationale :=
                                  Some (FromAgentsMd.stripRationaleLabel
                                          (trim (lit "Why: it pays off")));
                                rule_examples := None |}]));
           FromAgentsMd.inCodeBlock := false;
           FromAgentsMd.currentCodeBlock := None |}.
Proof.
  apply (rationale_goes_to_last_rule [] 2 (lit "Why: it pays off")
           (opened rulesWithOne) rulesWithOne []
           (plainRule (lit "Be kind"))); reflexivity.
Defined.

Lemma other_sub_bullet_is_dropped_witness :
  FromAgentsMd.parseLine [] 2 (lit "   - " ++ lit "see the wiki")
    (opened rulesWithOne)
  = inr (opened rulesWithOne).
Proof.
  apply (other_sub_bullet_is_dropped [] 2 (lit "see the wiki")
           (opened rulesWithOne) rulesWithOne []
           (plainRule (lit "Be kind"))); reflexivity.
Defined.

Lemma example_sub_bullet_is_unquoted_witness :
  FromAgentsMd.parseLine [] 2
    (lit "   - " ++ lit "Example: `" ++ lit "npm test" ++ lit "`")
    (opened rulesWithOne)
  = inr {| FromAgentsMd.sections := [];
           FromAgentsMd.currentSection :=
             Some (withItems rulesWithOne
                     ([] ++ [{| rule_content := lit "Be kind";
                                rule_rationale := None;
                                rule_examples :=
                                  Some ([] ++ [lit "npm test"]) |}]));
           FromAgentsMd.inCodeBlock := false;
           FromAgentsMd.currentCodeBlock := None |}.
Proof.
  apply (example_sub_bullet_is_unquoted [] 2 (lit "npm test")
           (opened rulesWithOne) rulesWithOne []
           (plainRule (lit "Be kind"))); try reflexivity.
  discriminate.
Defined.

(* ================================================================== *)
(** * The parser: description, front matter and tags                    *)
(* ================================================================== *)

Section DescriptionFacts.

Import Exn FromAgentsMd.

Lemma descriptionLoop_no_heading lines : forall acc,
  forallb (fun line => negb (isMainHeading line)) lines = true ->
  descriptionLoop lines false acc = acc.
Proof.
  induction lines as [|line lines IH]; intros acc H; [reflexivity|].
  cbn [forallb] in H. apply andb_prop in H. destruct H as [Hl Hs].
  apply negb_true_iff in Hl. unfold isMainHeading in Hl.
  cbn [descriptionLoop]. rewrite Hl. cbn [andb]. apply IH. exact Hs.
Qed.

(** X11.  Without a main heading (a line starting with "# ") no description
    is derived: the result is the empty string, whatever the text holds. *)
Theorem description_needs_main_heading content :
  forallb (fun line => negb (isMainHeading line)) (split_lines content)
  = true ->
  extractDescription content = [].
Proof.
  intros H. unfold extractDescription.
  rewrite (descriptionLoop_no_heading _ [] H). reflexivity.
Qed.

Lemma split_lines_nonempty s : split_lines s <> [].
Proof.
  destruct s as [|c s]; cbn [split_lines]; [discriminate|].
  destruct (c =? LF)%N; [discriminate|].
  destruct (split_lines s); discriminate.
Qed.

Lemma split_lines_app a b :
  split_lines (a ++ LF :: b) = split_lines a ++ split_lines b.
Proof.
  induction a as [|c a IH]; [reflexivity|].
  cbn [app split_lines]. rewrite IH.
  destruct (c =? LF)%N; [reflexivity|].
  destruct (split_lines a) as [|l ls] eqn:E; [|reflexivity].
  destruct (split_lines_nonempty a E).
Qed.

(** The first line of a text that starts with a prefix without line feed
    starts with that prefix. *)
Lemma split_lines_first p : forall s,
  forallb (fun c => negb (c =? LF)%N) p = true ->
  exists l ls, split_lines (p ++ s) = (p ++ l) :: ls.
Proof.
  induction p as [|c p IH]; intros s H.
  - cbn [app]. destruct (split_lines s) as [|l ls] eqn:E.
    + destruct (split_lines_nonempty s E).
    + exists l, ls. reflexivity.
  - cbn [forallb] in H. apply andb_prop in H. destruct H as [Hc Hp].
    apply negb_true_iff in Hc.
    destruct (IH s Hp) as (l & ls & E).
    cbn [app split_lines]. rewrite Hc, E. exists l, ls. reflexivity.
Qed.

Lemma startsWith_app s p t : startsWith s p = true -> startsWith (s ++ t) p = true.
Proof.
  revert s. induction p as [|c p IH]; intros s H.
  - destruct (s ++ t); reflexivity.
  - destruct s as [|d s]; [discriminate H|].
    cbn [app startsWith] in *. apply andb_prop in H. destruct H as [H1 H2].
    rewrite H1, (IH s H2). reflexivity.
Qed.

(** After the main heading, the loop stops at the first line that starts
    with "## " or "### ": what follows that line is not read. *)
Lemma descriptionLoop_stops before h : forall afterHeading acc rest rest',
  afterHeading = true \/ existsb isMainHeading before = true ->
  isMainHeading h = false ->
  startsWith h (lit "## ") || startsWith h (lit "### ") = true ->
  descriptionLoop (before ++ h :: rest) afterHeading acc
  = descriptionLoop (before ++ h :: rest') afterHeading acc.
Proof.
  induction before as [|line before IH]; intros ah acc rest rest' A M S.
  - destruct A as [->|A]; [|discriminate A].
    unfold isMainHeading in M.
    cbn [app descriptionLoop]. rewrite M, S. reflexivity.
  - cbn [app descriptionLoop].
    destruct (startsWith line (lit "# ")) eqn:Hm.
    + apply IH; auto.
    + assert (A' : ah = true \/ existsb isMainHeading before = true).
      { destruct A as [A|A]; [left; exact A|].
        cbn [existsb] in A. unfold isMainHeading at 1 in A.
        rewrite Hm in A. right. exact A. }
      destruct (ah && (startsWith line (lit "## ")
                       || startsWith line (lit "### "))); [reflexivity|].
      destruct (ah && truthy (trim line)).
      * destruct ((0 <? List.length (acc ++ [trim line]))%nat
                  && negb (truthy (trim line))); [reflexivity|].
        apply IH; auto.
      * apply IH; auto.
Qed.

(** X12.  Once the main heading has been read, the description stops at the
    first "## " heading: the text after that heading line has no influence
    on it. *)
Theorem description_stops_at_subheading before title after :
  existsb isMainHeading (split_lines before) = true ->
  extractDescription (before ++ nl ++ lit "## " ++ title ++ nl ++ after)
  = extractDescription (before ++ nl ++ lit "## " ++ title).
Proof.
  intros M. unfold extractDescription. f_equal. f_equal.
  change (before ++ nl ++ lit "## " ++ title ++ nl ++ after)
    with (before ++ LF :: (lit "## " ++ title) ++ LF :: after).
  change (before ++ nl ++ lit "## " ++ title)
    with (before ++ LF :: lit "## " ++ title).
  rewrite !split_lines_app.
  destruct (split_lines_first (lit "## ") title eq_refl) as (l & ls & E).
  rewrite E. cbn [app].
  apply descriptionLoop_stops.
  - right. exact M.
  - reflexivity.
  - change (lit "## " ++ l) with ((lit "## " ++ []) ++ l).
    rewrite (startsWith_app (lit "## " ++ []) (lit "## ") l eq_refl).
    reflexivity.
Qed.

Lemma descriptionLoop_skips_empty before : forall afterHeading acc rest,
  descriptionLoop (before ++ [] :: rest) afterHeading acc
  = descriptionLoop (before ++ rest) afterHeading acc.
Proof.
  induction before as [|line before IH]; intros ah acc rest.
  - cbn [app descriptionLoop].
    change (startsWith [] (lit "# ")) with false.
    change (startsWith [] (lit "## ")) with false.
    change (startsWith [] (lit "### ")) with false.
    change (truthy (trim [])) with false.
    rewrite !andb_false_r. reflexivity.
  - cbn [app descriptionLoop].
    destruct (startsWith line (lit "# ")); [apply IH|].
    destruct (ah && (startsWith line (lit "## ")
                     || startsWith line (lit "### "))); [reflexivity|].
    destruct (ah && truthy (trim line)); [|apply IH].
    destruct ((0 <? List.length (acc ++ [trim line]))%nat
              && negb (truthy (trim line))); [reflexivity|apply IH].
Qed.

(** X13.  An empty line does not end the description: inserting one anywhere
    in the text leaves the description as it was, so the description runs
    over all paragraphs up to the next heading. *)
Theorem empty_line_does_not_end_description before after :
  extractDescription (before ++ nl ++ nl ++ after)
  = extractDescription (before ++ nl ++ after).
Proof.
  unfold extractDescription. f_equal. f_equal.
  change (before ++ nl ++ nl ++ after) with (before ++ LF :: (LF :: after)).
  change (before ++ nl ++ after) with (before ++ LF :: after).
  rewrite !split_lines_app.
  change (split_lines (LF :: after)) with ([] :: split_lines after).
  apply descriptionLoop_skips_empty.
Qed.

(** ** Front matter *)

Lemma startsWith_split s : forall p,
  startsWith s p = true -> s = p ++ skipn (List.length p) s.
Proof.
  induction s as [|c s IH]; intros [|d p] H; try reflexivity;
    try discriminate H.
  cbn [startsWith] in H. apply andb_prop in H. destruct H as [H1 H2].
  apply N.eqb_eq in H1. subst d.
  cbn [app List.length skipn]. f_equal. apply IH. exact H2.
Qed.

Lemma cut_sound s sep : forall a b,
  cut s sep = Some (a, b) -> s = a ++ sep ++ b.
Proof.
  induction s as [|c s IH]; intros a b H.
  - cbn [cut] in H. destruct (startsWith [] sep) eqn:S; [|discriminate H].
    injection H as <- <-. apply (startsWith_split [] sep S).
  - cbn [cut] in H. destruct (startsWith (c :: s) sep) eqn:S.
    + injection H as <- <-. apply (startsWith_split (c :: s) sep S).
    + destruct (cut s sep) as [[a' b']|] eqn:E; [|discriminate H].
      injection H as <- <-. cbn [app]. f_equal. apply IH. reflexivity.
Qed.

(** The text before the cut holds no earlier occurrence of the
    separator. *)
Lemma cut_first s sep : forall a b,
  cut s sep = Some (a, b) ->
  forall k, (k < List.length a)%nat -> startsWith (skipn k s) sep = false.
Proof.
  induction s as [|c s IH]; intros a b H k Hk.
  - cbn [cut] in H. destruct (startsWith [] sep); [|discriminate H].
    injection H as <- <-. inversion Hk.
  - cbn [cut] in H. destruct (startsWith (c :: s) sep) eqn:S.
    + injection H as <- <-. inversion Hk.
    + destruct (cut s sep) as [[a' b']|] eqn:E; [|discriminate H].
      injection H as <- <-. destruct k as [|k]; [exact S|].
      cbn [skipn]. apply (IH a' b' eq_refl). cbn [List.length] in Hk. lia.
Qed.

Variable yaml_load : jsstring -> option Frontmatter.

(** X14.  What [parseFrontmatter] returns as the body is either the whole
    text, with empty front matter (no front-matter block, or one that
    [yaml.load] rejects: the block then stays in the body), or the text
    after the first closing line of three dashes; in that case the text is
    the opening line, the YAML that was loaded, the closing line and the
    body, and the YAML holds no earlier closing line. *)
Theorem frontmatter_splits_the_text content frontmatter body :
  parseFrontmatter yaml_load content = (frontmatter, body) ->
  (frontmatter = emptyFrontmatter /\ body = content)
  \/ (exists text parsed,
         content = (lit "---" ++ nl) ++ text ++ (nl ++ lit "---" ++ nl) ++ body
         /\ yaml_load text = Some parsed
         /\ frontmatter = {| fm_project := fm_project parsed;
                             fm_scope := fm_scope parsed |}
         /\ forall k, (k < List.length text)%nat ->
              startsWith (skipn k (text ++ (nl ++ lit "---" ++ nl) ++ body))
                         (nl ++ lit "---" ++ nl) = false).
Proof.
  unfold parseFrontmatter, matchFrontmatter.
  destruct (startsWith content (lit "---" ++ nl)) eqn:S.
  - destruct (cut (skipn 4 content) (nl ++ lit "---" ++ nl))
      as [[text rest]|] eqn:C.
    + destruct (yaml_load text) as [parsed|] eqn:Y.
      * intros H. injection H as <- <-. right. exists text, parsed.
        pose proof (cut_sound _ _ _ _ C) as R.
        split; [|split; [exact Y|split; [reflexivity|]]].
        -- rewrite (startsWith_split content _ S) at 1.
           change (List.length (lit "---" ++ nl)) with 4%nat.
           rewrite R at 1. reflexivity.
        -- intros k Hk. rewrite <- R. apply (cut_first _ _ _ _ C k Hk).
      * intros H. injection H as <- <-. left. split; reflexivity.
    + intros H. injection H as <- <-. left. split; reflexivity.
  - intros H. injection H as <- <-. left. split; reflexivity.
Qed.

(** ** Tags *)

Lemma firstn_short {A} n (l t : list A) :
  (n <= List.length l)%nat -> firstn n (l ++ t) = firstn n l.
Proof.
  intros H. rewrite firstn_app.
  replace (n - List.length l)%nat with 0%nat by lia.
  cbn [firstn]. apply app_nil_r.
Qed.

(** X15.  When five or more keywords of the vocabulary occur in the text,
    the inferred tags are the first five of them in the order of the
    vocabulary, and the marker "codex" is not among the tags, also when the
    text mentions it. *)
Theorem codex_tag_lost_after_five_keywords body :
  (5 <= List.length (matchedKeywords body))%nat ->
  inferTags body = firstn 5 (matchedKeywords body)
  /\ ~ In (lit "codex") (inferTags body).
Proof.
  intros H.
  assert (E : inferTags body = firstn 5 (matchedKeywords body)).
  { unfold inferTags. fold (matchedKeywords body).
    destruct (includes (toLowerCase body) (lit "codex")
              || includes (toLowerCase body) (lit "openai"));
      [apply firstn_short; exact H|reflexivity]. }
  split; [exact E|]. rewrite E. intros K.
  apply firstn_incl in K. unfold matchedKeywords in K.
  apply filter_In in K. destruct K as [K _].
  vm_compute in K.
  repeat (destruct K as [K|K]; [discriminate K|]). exact K.
Qed.

(** X16.  The description of the package is the one the caller supplies
    when it is not empty, and otherwise the derived one, which never exceeds
    200 code units; the metadata section and [pkg.metadata] carry the same
    description. *)
Theorem description_supplied_or_derived :
  forall content metadata,
    exists pkg,
      fromAgentsMd yaml_load content metadata = inr pkg
      /\ pkg_description pkg
         = or_else (pm_description metadata)
             (extractDescription (snd (parseFrontmatter yaml_load content)))
      /\ (truthy_opt (pm_description metadata) = false ->
          (List.length (pkg_description pkg) <= 200)%nat)
      /\ hd_error (cc_sections (pkg_content pkg))
         = Some (metadataSection metadata (pkg_description pkg))
      /\ ToCursor.opt_field (pkg_metadata pkg) pi_description
         = Some (pkg_description pkg).
Proof.
  intros content metadata. unfold fromAgentsMd.
  destruct (parseFrontmatter yaml_load content) as [fm body]. cbn [snd].
  destruct (parseMarkdown_ok body) as (secs & E & _).
  rewrite E. cbn [bind]. eexists. split; [reflexivity|].
  cbn [setTaxonomy pkg_description pkg_content cc_sections pkg_metadata
       ToCursor.opt_field pi_description hd_error].
  repeat split.
  intros T. unfold or_else.
  destruct (pm_description metadata) as [d|]; cbn [truthy_opt] in T.
  - rewrite T. unfold extractDescription, substring0. apply firstn_le_length.
  - unfold extractDescription, substring0. apply firstn_le_length.
Qed.

End DescriptionFacts.

Lemma frontmatter_splits_the_text_witness :
  ({| FromAgentsMd.fm_project := Some (lit "demo");
      FromAgentsMd.fm_scope := None |} = FromAgentsMd.emptyFrontmatter
   /\ [] = frontMatterOnly)
  \/ (exists text parsed,
         frontMatterOnly
         = (lit "---" ++ nl) ++ text ++ (nl ++ lit "---" ++ nl) ++ []
         /\ demoYaml text = Some parsed
         /\ {| FromAgentsMd.fm_project := Some (lit "demo");
               FromAgentsMd.fm_scope := None |}
            = {| FromAgentsMd.fm_project := FromAgentsMd.fm_project parsed;
                 FromAgentsMd.fm_scope := FromAgentsMd.fm_scope parsed |}
         /\ forall k, (k < List.length text)%nat ->
              startsWith
                (skipn k (text ++ (nl ++ lit "---" ++ nl) ++ []))
                (nl ++ lit "---" ++ nl) = false).
Proof.
  apply (frontmatter_splits_the_text demoYaml frontMatterOnly
           {| FromAgentsMd.fm_project := Some (lit "demo");
              FromAgentsMd.fm_scope := None |} []).
  reflexivity.
Defined.

Lemma codex_tag_lost_after_five_keywords_witness :
  FromAgentsMd.inferTags
    (lit "TypeScript and JavaScript, Python, React, testing the API of Codex")
  = firstn 5
      (matchedKeywords
         (lit "TypeScript and JavaScript, Python, React, testing the API of Codex"))
  /\ ~ In (lit "codex")
          (FromAgentsMd.inferTags
             (lit "TypeScript and JavaScript, Python, React, testing the API of Codex")).
Proof.
  apply (codex_tag_lost_after_five_keywords
           (lit "TypeScript and JavaScript, Python, React, testing the API of Codex")).
  vm_compute. lia.
Defined.

Lemma description_needs_main_heading_witness :
  FromAgentsMd.extractDescription
    (join nl [lit "Intro without title"; lit "## Rules"; lit "- one"])
  = [].
Proof.
  apply (description_needs_main_heading
           (join nl [lit "Intro without title"; lit "## Rules"; lit "- one"])).
  reflexivity.
Defined.

Lemma description_stops_at_subheading_witness :
  FromAgentsMd.extractDescription
    ((lit "# Title" ++ nl ++ lit "First paragraph.")
     ++ nl ++ lit "## " ++ lit "Rules" ++ nl ++ lit "- one")
  = FromAgentsMd.extractDescription
      ((lit "# Title" ++ nl ++ lit "First paragraph.")
       ++ nl ++ lit "## " ++ lit "Rules").
Proof.
  apply (description_stops_at_subheading
           (lit "# Title" ++ nl ++ lit "First paragraph.")
           (lit "Rules") (lit "- one")).
  reflexivity.
Defined.

(* ================================================================== *)
(** * The Cursor converter: warnings, faults and the header             *)
(* ================================================================== *)

Section ConverterWarnings.

Import Exn ToCursor.

Lemma includes_app_r a b needle :
  includes b needle = true -> includes (a ++ b) needle = true.
Proof.
  intros H. induction a as [|c a IH]; [exact H|].
  cbn [app includes]. rewrite IH. apply orb_true_r.
Qed.

Lemma startsWith_includes s needle :
  startsWith s needle = true -> includes s needle = true.
Proof.
  intros H. destruct s; cbn [includes]; rewrite H; reflexivity.
Qed.

(** What a section of a skipped kind pushes, and that the other kinds push
    nothing. *)
Lemma sectionWarnings_lossyKind s :
  lossyKind s = true ->
  exists w, sectionWarnings s = [w] /\ isLossyWarning w = true.
Proof.
  unfold sectionWarnings.
  destruct s as [d|t c p|t its o|t exs|d|t c|tools|e c|ty];
    cbn [lossyKind]; intros K; try discriminate K.
  - eexists. split; reflexivity.
  - apply andb_prop in K. destruct K as [K1 K2].
    apply negb_true_iff in K2. cbn [convertSection]. rewrite K1, K2.
    cbn [negb orb warnAndSkip fst app]. eexists. split; [reflexivity|].
    unfold isLossyWarning.
    rewrite (includes_app_r (lit "Custom ") _ (lit "skipped")
               (includes_app_r (or_else e []) (lit " section skipped")
                  (lit "skipped") eq_refl)).
    apply orb_true_r.
Qed.

Lemma sectionWarnings_rendered s :
  wellShaped s = true -> skippedKind s = false -> sectionWarnings s = [].
Proof.
  unfold sectionWarnings.
  destruct s as [[d|]|t c p|t [its|] o|t [exs|]|[d|]|t c|tools|e c|ty];
    cbn [wellShaped skippedKind]; intros W K;
    try discriminate W; try discriminate K; try reflexivity.
  cbn [convertSection].
  destruct (truthy_opt e); cbn [andb negb orb] in *; [|reflexivity].
  apply negb_false_iff in K. rewrite K. reflexivity.
Qed.

Lemma sectionWarnings_count s :
  wellShaped s = true ->
  List.length (sectionWarnings s) = if skippedKind s then 1%nat else 0%nat.
Proof.
  intros W. destruct (skippedKind s) eqn:K.
  - unfold sectionWarnings.
    destruct s as [d|t c p|t its o|t exs|d|t c|tools|e c|ty];
      cbn [skippedKind] in K; try discriminate K; try reflexivity.
    apply andb_prop in K. destruct K as [K1 K2].
    apply negb_true_iff in K2. cbn [convertSection]. rewrite K1, K2.
    reflexivity.
  - rewrite (sectionWarnings_rendered s W K). reflexivity.
Qed.

Lemma skippedKind_cases s :
  skippedKind s = lossyKind s
                  || match s with OtherSection _ => true | _ => false end.
Proof.
  destruct s; cbn [skippedKind lossyKind orb]; try reflexivity.
  rewrite orb_false_r. reflexivity.
Qed.

Variable typeErrorMessage : FaultSite -> jsstring.

(** X17.  A tools section, or a custom section of another editor, is left out
    of the text and pushes one warning that says "skipped": the conversion
    is then lossy and scores 90.  For a tools section the warning is
    "Tools section skipped (Claude-specific)". *)
Theorem skipped_section_makes_conversion_lossy pkg cursorConfig s :
  forallb wellShaped (cc_sections (pkg_content pkg)) = true ->
  In s (cc_sections (pkg_content pkg)) ->
  lossyKind s = true ->
  (exists w,
      sectionWarnings s = [w]
      /\ In w (warningsOf (toCursor typeErrorMessage pkg cursorConfig)))
  /\ (forall tools,
         sectionWarnings (ToolsSection tools)
         = [lit "Tools section skipped (Claude-specific)"])
  /\ blocks [s] = []
  /\ res_lossyConversion (toCursor typeErrorMessage pkg cursorConfig) = true
  /\ res_qualityScore (toCursor typeErrorMessage pkg cursorConfig) = 90%Z.
Proof.
  intros W Hin K.
  destruct (sectionWarnings_lossyKind s K) as (w & Ew & Lw).
  assert (Hw : In w (flat_map sectionWarnings
                       (cc_sections (pkg_content pkg)))).
  { apply in_flat_map. exists s. split; [exact Hin|].
    rewrite Ew. left. reflexivity. }
  assert (E : existsb isLossyWarning
                (flat_map sectionWarnings (cc_sections (pkg_content pkg)))
              = true)
    by (apply existsb_exists; exists w; split; assumption).
  rewrite (toCursor_shaped typeErrorMessage pkg cursorConfig W).
  cbv zeta. unfold warningsOf.
  cbn [res_warnings res_lossyConversion res_qualityScore].
  rewrite warningsOf_shaped, E.
  split; [exists w; split; assumption|].
  split; [reflexivity|]. split; [|split; reflexivity].
  rewrite blocks_cons, (skipped_renders_nothing s). { reflexivity. }
  rewrite skippedKind_cases, K. reflexivity.
Qed.

(** X18.  A section of an unknown kind is left out of the text with a
    warning that names the kind, but that warning does not count as lossy
    (unless the name itself holds "skipped" or "not supported"): when the
    other sections are all rendered, the conversion is not marked lossy and
    scores 100. *)
Theorem unknown_section_is_dropped_quietly pkg cursorConfig :
  forallb wellShaped (cc_sections (pkg_content pkg)) = true ->
  forallb quietSection (cc_sections (pkg_content pkg)) = true ->
  res_lossyConversion (toCursor typeErrorMessage pkg cursorConfig) = false
  /\ res_qualityScore (toCursor typeErrorMessage pkg cursorConfig) = 100%Z
  /\ forall type,
       In (OtherSection type) (cc_sections (pkg_content pkg)) ->
       In (lit "Unknown section type: " ++ type)
          (warningsOf (toCursor typeErrorMessage pkg cursorConfig))
       /\ blocks [OtherSection type] = [].
Proof.
  intros W Q.
  assert (E : existsb isLossyWarning
                (flat_map sectionWarnings (cc_sections (pkg_content pkg)))
              = false).
  { clear cursorConfig.
    induction (cc_sections (pkg_content pkg)) as [|s l IH]; [reflexivity|].
    cbn [forallb] in W, Q.
    apply andb_prop in W. destruct W as [Ws Wl].
    apply andb_prop in Q. destruct Q as [Qs Ql].
    cbn [flat_map]. rewrite existsb_app, (IH Wl Ql), orb_false_r.
    destruct s as [d|t c p|t its o|t exs|d|t c|tools|e c|ty];
      try (rewrite sectionWarnings_rendered;
           [reflexivity|exact Ws|
            cbn [quietSection] in Qs; apply negb_true_iff in Qs; exact Qs]).
    cbn [quietSection] in Qs. apply negb_true_iff in Qs.
    unfold sectionWarnings. cbn [convertSection warnAndSkip fst app existsb].
    rewrite Qs. reflexivity. }
  rewrite (toCursor_shaped typeErrorMessage pkg cursorConfig W).
  cbv zeta. unfold warningsOf.
  cbn [res_warnings res_lossyConversion res_qualityScore].
  rewrite warningsOf_shaped, E.
  split; [reflexivity|]. split; [reflexivity|].
  intros type Hin. split; [|reflexivity].
  apply in_flat_map. exists (OtherSection type). split; [exact Hin|].
  left. reflexivity.
Qed.

(** X19.  When no renderer raises there is one warning per section of a
    skipped kind (tools, custom of another editor, unknown), and the
    [warnings] field is absent exactly when no section is of such a kind. *)
Theorem one_warning_per_skipped_section pkg cursorConfig :
  forallb wellShaped (cc_sections (pkg_content pkg)) = true ->
  List.length (warningsOf (toCursor typeErrorMessage pkg cursorConfig))
  = List.length (filter skippedKind (cc_sections (pkg_content pkg)))
  /\ (res_warnings (toCursor typeErrorMessage pkg cursorConfig) = None
      <-> filter skippedKind (cc_sections (pkg_content pkg)) = []).
Proof.
  intros W.
  assert (L : List.length
                (flat_map sectionWarnings (cc_sections (pkg_content pkg)))
              = List.length
                  (filter skippedKind (cc_sections (pkg_content pkg)))).
  { clear cursorConfig.
    induction (cc_sections (pkg_content pkg)) as [|s l IH]; [reflexivity|].
    cbn [forallb] in W. apply andb_prop in W. destruct W as [Ws Wl].
    cbn [flat_map filter].
    rewrite length_app, (sectionWarnings_count s Ws), (IH Wl).
    destruct (skippedKind s); reflexivity. }
  rewrite (toCursor_shaped typeErrorMessage pkg cursorConfig W).
  cbv zeta. unfold warningsOf. cbn [res_warnings].
  rewrite warningsOf_shaped. split; [exact L|].
  destruct (flat_map sectionWarnings (cc_sections (pkg_content pkg)))
    as [|w ws];
    destruct (filter skippedKind (cc_sections (pkg_content pkg)))
    as [|x xs]; try discriminate L; split; intros H;
    try reflexivity; discriminate H.
Qed.

End ConverterWarnings.

Section ConverterFaults.

Import Exn ToCursor.

Lemma convertSection_faultSite s site warnings :
  faultSite s = Some site ->
  convertSection s warnings = (warnings, inl (TypeError site)).
Proof.
  destruct s as [[d|]|t c p|t [its|] o|t [exs|]|[d|]|t c|tools|e c|ty];
    cbn [faultSite]; intros F; try discriminate F;
    injection F as <-; reflexivity.
Qed.

Lemma convertLoop_first_fault before bad after site : forall lines warnings,
  forallb wellShaped before = true ->
  faultSite bad = Some site ->
  convertLoop (before ++ bad :: after) lines warnings
  = (warnings ++ flat_map sectionWarnings before, inl (TypeError site)).
Proof.
  induction before as [|s before IH]; intros lines warnings W F.
  - cbn [app convertLoop flat_map].
    rewrite (convertSection_faultSite bad site warnings F), app_nil_r.
    reflexivity.
  - cbn [forallb] in W. apply andb_prop in W. destruct W as [Ws W].
    cbn [app convertLoop flat_map].
    rewrite (convertSection_shaped s warnings Ws), IH by assumption.
    rewrite app_assoc. reflexivity.
Qed.

(** Among sections one of which lacks the data its renderer reads, there is
    a first one. *)
Lemma first_ill_shaped sections :
  forallb wellShaped sections = false ->
  exists before bad after site,
    sections = before ++ bad :: after
    /\ forallb wellShaped before = true
    /\ faultSite bad = Some site.
Proof.
  induction sections as [|s sections IH]; intros W; [discriminate W|].
  cbn [forallb] in W. destruct (wellShaped s) eqn:Ws.
  - cbn [andb] in W.
    destruct (IH W) as (before & bad & after & site & -> & Wb & F).
    exists (s :: before), bad, after, site.
    split; [reflexivity|]. split; [|exact F].
    cbn [forallb]. rewrite Ws, Wb. reflexivity.
  - exists [], s, sections.
    destruct s as [[d|]|t c p|t [its|] o|t [exs|]|[d|]|t c|tools|e c|ty];
      try discriminate Ws; eexists; repeat split.
Qed.

Variable typeErrorMessage : FaultSite -> jsstring.

(** C8.  When a section lacks the data its renderer reads, the fault is
    caught: [toCursor] returns an empty content, marked lossy, with score 0.
    Its warnings are those of the sections before the first such section,
    followed by a last warning that carries the message of the fault raised
    at that section. *)
Theorem conversion_fault_is_caught pkg cursorConfig :
  forallb wellShaped (cc_sections (pkg_content pkg)) = false ->
  exists before bad after site,
    cc_sections (pkg_content pkg) = before ++ bad :: after
    /\ forallb wellShaped before = true
    /\ faultSite bad = Some site
    /\ toCursor typeErrorMessage pkg cursorConfig
       = {| res_content := [];
            res_format := lit "cursor";
            res_warnings :=
              Some (flat_map sectionWarnings before
                    ++ [lit "Conversion error: " ++ typeErrorMessage site]);
            res_lossyConversion := true;
            res_qualityScore := 0%Z |}.
Proof.
  intros W.
  destruct (first_ill_shaped _ W) as (before & bad & after & site & S & Wb & F).
  exists before, bad, after, site.
  split; [exact S|]. split; [exact Wb|]. split; [exact F|].
  unfold toCursor, convertContent. rewrite S.
  rewrite (convertLoop_first_fault before bad after site [] [] Wb F).
  reflexivity.
Qed.

(** X20.  The first section that lacks the data its renderer reads ends the
    conversion: the result holds no text at all, the warnings are those of
    the sections before it followed by the message of the fault, and the
    sections after it are not looked at. *)
Theorem first_fault_ends_conversion pkg cursorConfig before bad after site :
  cc_sections (pkg_content pkg) = before ++ bad :: after ->
  forallb wellShaped before = true ->
  faultSite bad = Some site ->
  toCursor typeErrorMessage pkg cursorConfig
  = {| res_content := [];
       res_format := lit "cursor";
       res_warnings :=
         Some (flat_map sectionWarnings before
               ++ [lit "Conversion error: " ++ typeErrorMessage site]);
       res_lossyConversion := true;
       res_qualityScore := 0%Z |}.
Proof.
  intros S W F. unfold toCursor, convertContent. rewrite S.
  rewrite (convertLoop_first_fault before bad after site [] [] W F).
  reflexivity.
Qed.

(** ** The header *)

Lemma join_cons sep p t :
  t <> [] -> join sep (p :: t) = p ++ sep ++ join sep t.
Proof. destruct t; [congruence|reflexivity]. Qed.

(** The header is a block between two lines of three dashes, and the line
    of the always-apply flag is in it. *)
Lemma header_shape pkg cursorConfig :
  exists middle,
    generateMDCHeader pkg cursorConfig
    = join nl (lit "---" :: middle ++ [lit "---"])
    /\ In (lit "alwaysApply: "
           ++ ofBool
                match opt_field cursorConfig cfg_alwaysApply with
                | Some b => b
                | None =>
                  match opt_field (pkg_metadata pkg) pi_alwaysApply with
                  | Some b => b
                  | None => false
                  end
                end)
          middle.
Proof.
  unfold generateMDCHeader. cbv zeta.
  repeat match goal with
         | |- context [if ?c then _ else _] =>
           lazymatch c with
           | context [ofBool] => fail
           | _ => destruct c
           end
         | |- context [match ?c with Some _ => _ | None => _ end] =>
           lazymatch c with
           | opt_field cursorConfig cfg_alwaysApply => fail
           | opt_field (pkg_metadata pkg) pi_alwaysApply => fail
           | _ => destruct c
           end
         | |- context [match ?c with [] => _ | _ :: _ => _ end] => destruct c
         end.
  all: match goal with
       | |- exists middle, join nl (?L ++ [lit "---"]) = _ /\ In ?line _ =>
         assert (HL : exists m, L = lit "---" :: m /\ In line m)
           by (rewrite <- ?app_assoc; cbn [app];
               eexists; (split; [reflexivity|]);
               repeat match goal with
                      | |- In _ (_ ++ _) => rewrite in_app_iff
                      | |- In _ (_ :: _) => cbn [In]
                      | |- ?a = ?a \/ _ => left; reflexivity
                      | |- ?a = ?a => reflexivity
                      | |- _ \/ _ => right
                      end);
         destruct HL as (m & -> & Hin); exists m;
         split; [reflexivity|exact Hin]
       end.
Qed.

(** X21.  The header [generateMDCHeader] returns opens and closes with a line
    of three dashes and always states the always-apply flag: the value of
    the configuration when it gives one, else the one of the package
    metadata, else false. *)
Theorem header_states_apply_flag pkg cursorConfig :
  exists middle,
    generateMDCHeader pkg cursorConfig
    = lit "---" ++ nl ++ join nl (middle ++ [lit "---"])
    /\ In (lit "alwaysApply: "
           ++ ofBool
                match opt_field cursorConfig cfg_alwaysApply with
                | Some b => b
                | None =>
                  match opt_field (pkg_metadata pkg) pi_alwaysApply with
                  | Some b => b
                  | None => false
                  end
                end)
          middle.
Proof.
  destruct (header_shape pkg cursorConfig) as (middle & E & Hin).
  exists middle. split; [|exact Hin].
  rewrite E. apply join_cons. destruct middle; discriminate.
Qed.

(** X22.  [isCursorFormat] never recognises what [toCursor] returns: the
    text starts with the front-matter line of the header (and is empty when
    the conversion failed). *)
Theorem converted_text_is_not_cursor_format pkg cursorConfig :
  isCursorFormat (res_content (toCursor typeErrorMessage pkg cursorConfig))
  = false.
Proof.
  destruct (forallb wellShaped (cc_sections (pkg_content pkg))) eqn:W.
  - rewrite (toCursor_shaped typeErrorMessage pkg cursorConfig W).
    cbv zeta. cbn [res_content].
    destruct (header_shape pkg cursorConfig) as (middle & -> & _).
    rewrite join_cons by (destruct middle; discriminate).
    unfold isCursorFormat.
    match goal with
    | |- _ && negb (includes ?text _) && _ = false =>
      assert (I : includes text (lit "---" ++ nl) = true)
    end.
    { apply startsWith_includes.
      rewrite <- !app_assoc. rewrite (app_assoc (lit "---") nl).
      apply startsWith_prefix. }
    rewrite I. cbn [negb]. rewrite andb_false_r. reflexivity.
  - destruct (toCursor_fault typeErrorMessage pkg cursorConfig W)
      as (earlier & site & ->).
    reflexivity.
Qed.

(** ** Rules *)

Lemma bulletLine_dash text : bulletLine (lit "- " ++ text) = true.
Proof. unfold bulletLine. rewrite startsWith_prefix. reflexivity. Qed.

Lemma bulletLine_sub text : bulletLine (lit "   - " ++ text) = true.
Proof. unfold bulletLine. rewrite startsWith_prefix. apply orb_true_r. Qed.

Lemma renderRule_unordered index rule :
  forallb bulletLine (renderRule false index rule) = true
  /\ In (lit "- " ++ rule_content rule) (renderRule false index rule).
Proof.
  unfold renderRule. split.
  - rewrite !forallb_app. cbn [forallb].
    change (lit "-" ++ lit " " ++ rule_content rule)
      with (lit "- " ++ rule_content rule).
    rewrite bulletLine_dash. cbn [andb].
    apply andb_true_intro. split.
    + destruct (truthy_opt (rule_rationale rule)); [|reflexivity].
      cbn [forallb].
      change (lit "   - *Rationale: " ++ or_else (rule_rationale rule) []
              ++ lit "*")
        with (lit "   - " ++ (lit "*Rationale: "
                              ++ or_else (rule_rationale rule) []
                              ++ lit "*")).
      rewrite bulletLine_sub. reflexivity.
    + destruct (rule_examples rule) as [exs|]; [|reflexivity].
      induction exs as [|e exs IH]; [reflexivity|].
      cbn [map forallb].
      change (lit "   - Example: `" ++ e ++ lit "`")
        with (lit "   - " ++ (lit "Example: `" ++ e ++ lit "`")).
      rewrite bulletLine_sub. exact IH.
  - left. reflexivity.
Qed.

Lemma renderRules_unordered items : forall index,
  forallb bulletLine (renderRules false index items) = true
  /\ forall rule, In rule items ->
       In (lit "- " ++ rule_content rule) (renderRules false index items).
Proof.
  induction items as [|r items IH]; intros index.
  - split; [reflexivity|intros rule []].
  - destruct (renderRule_unordered index r) as [B I].
    destruct (IH (S index)) as [Bs Is].
    cbn [renderRules]. split.
    + rewrite forallb_app, B, Bs. reflexivity.
    + intros rule [<-|Hin]; apply in_or_app; [left; exact I|right; auto].
Qed.

(** X23.  A rules section that is not ordered ([ordered] false or absent) is
    rendered as its heading, an empty line and bullet lines only: every rule
    gives the line "- " followed by its content, whatever the number of
    rules, and the other lines are indented sub-bullets. *)
Theorem unordered_rules_use_bullets title items ordered :
  ordered = None \/ ordered = Some false ->
  exists bullets,
    convertRules title (Some items) ordered
    = inr (join nl ((lit "## " ++ title) :: [] :: bullets))
    /\ forallb bulletLine bullets = true
    /\ forall rule, In rule items ->
         In (lit "- " ++ rule_content rule) bullets.
Proof.
  intros O. exists (renderRules false 0 items).
  destruct (renderRules_unordered items 0) as [B I].
  split; [|split; assumption].
  destruct O as [->| ->]; reflexivity.
Qed.

End ConverterFaults.

Lemma skipped_section_makes_conversion_lossy_witness :
  (exists w,
      sectionWarnings (ToolsSection [lit "Read"; lit "Write"]) = [w]
      /\ In w (warningsOf (ToCursor.toCursor v8Message
                             (samplePackage lossySections) None)))
  /\ (forall tools,
         sectionWarnings (ToolsSection tools)
         = [lit "Tools section skipped (Claude-specific)"])
  /\ blocks [ToolsSection [lit "Read"; lit "Write"]] = []
  /\ res_lossyConversion
       (ToCursor.toCursor v8Message (samplePackage lossySections) None) = true
  /\ res_qualityScore
       (ToCursor.toCursor v8Message (samplePackage lossySections) None) = 90%Z.
Proof.
  apply (skipped_section_makes_conversion_lossy v8Message
           (samplePackage lossySections) None
           (ToolsSection [lit "Read"; lit "Write"])).
  - reflexivity.
  - right. left. reflexivity.
  - reflexivity.
Defined.

Lemma unknown_section_is_dropped_quietly_witness :
  res_lossyConversion
    (ToCursor.toCursor v8Message
       (samplePackage [titleSection; OtherSection (lit "unknown")]) None)
  = false
  /\ res_qualityScore
       (ToCursor.toCursor v8Message
          (samplePackage [titleSection; OtherSection (lit "unknown")]) None)
     = 100%Z
  /\ forall type,
       In (OtherSection type)
          (cc_sections
             (pkg_content
                (samplePackage [titleSection; OtherSection (lit "unknown")]))) ->
       In (lit "Unknown section type: " ++ type)
          (warningsOf
             (ToCursor.toCursor v8Message
                (samplePackage [titleSection; OtherSection (lit "unknown")])
                None))
       /\ blocks [OtherSection type] = [].
Proof.
  apply (unknown_section_is_dropped_quietly v8Message
           (samplePackage [titleSection; OtherSection (lit "unknown")]) None);
    reflexivity.
Defined.

Lemma one_warning_per_skipped_section_witness :
  List.length
    (warningsOf (ToCursor.toCursor v8Message (samplePackage lossySections)
                   None))
  = List.length
      (filter skippedKind
         (cc_sections (pkg_content (samplePackage lossySections))))
  /\ (res_warnings
        (ToCursor.toCursor v8Message (samplePackage lossySections) None)
      = None
      <-> filter skippedKind
            (cc_sections (pkg_content (samplePackage lossySections))) = []).
Proof.
  apply (one_warning_per_skipped_section v8Message
           (samplePackage lossySections) None).
  reflexivity.
Defined.

Lemma first_fault_ends_conversion_witness :
  ToCursor.toCursor v8Message
    (samplePackage (faultySections ++ [ToolsSection [lit "Bash"]])) None
  = {| res_content := [];
       res_format := lit "cursor";
       res_warnings :=
         Some (flat_map sectionWarnings [ToolsSection [lit "Read"]]
               ++ [lit "Conversion error: "
                   ++ v8Message Exn.MetadataDataUndefined]);
       res_lossyConversion := true;
       res_qualityScore := 0%Z |}.
Proof.
  apply (first_fault_ends_conversion v8Message
           (samplePackage (faultySections ++ [ToolsSection [lit "Bash"]]))
           None [ToolsSection [lit "Read"]] (MetadataSection None)
           [ToolsSection [lit "Bash"]] Exn.MetadataDataUndefined);
    reflexivity.
Defined.

Lemma unordered_rules_use_bullets_witness :
  exists bullets,
    ToCursor.convertRules (lit "Rules")
      (Some [plainRule (lit "Rule 1"); plainRule (lit "Rule 2")])
      (Some false)
    = inr (join nl ((lit "## " ++ lit "Rules") :: [] :: bullets))
    /\ forallb bulletLine bullets = true
    /\ forall rule,
         In rule [plainRule (lit "Rule 1"); plainRule (lit "Rule 2")] ->
         In (lit "- " ++ rule_content rule) bullets.
Proof.
  apply (unordered_rules_use_bullets (lit "Rules")
           [plainRule (lit "Rule 1"); plainRule (lit "Rule 2")] (Some false)).
  right. reflexivity.
Defined.

Lemma conversion_fault_is_caught_witness :
  exists before bad after site,
    cc_sections (pkg_content (samplePackage faultySections))
    = before ++ bad :: after
    /\ forallb wellShaped before = true
    /\ faultSite bad = Some site
    /\ ToCursor.toCursor v8Message (samplePackage faultySections) None
       = {| res_content := [];
            res_format := lit "cursor";
            res_warnings :=
              Some (flat_map sectionWarnings before
                    ++ [lit "Conversion error: " ++ v8Message site]);
            res_lossyConversion := true;
            res_qualityScore := 0%Z |}.
Proof.
  apply (conversion_fault_is_caught v8Message (samplePackage faultySections)
           None).
  reflexivity.
Defined.

(* ================================================================== *)
(** * Parsing, then converting                                          *)
(* ================================================================== *)

Section ParseThenConvert.

Import Exn FromAgentsMd ToCursor.

Lemma truthy_join sep p rest :
  truthy p = true -> truthy (join sep (p :: rest)) = true.
Proof.
  destruct p as [|c p]; [discriminate|]. intros _.
  destruct rest; reflexivity.
Qed.

(** What [buildSection] returns is rendered, to a text that is not empty,
    without a warning. *)
Lemma isBuilt_rendered s :
  isBuilt s ->
  wellShaped s = true /\ skippedKind s = false /\ truthy (rendered s) = true.
Proof.
  intros [cs ->]. unfold buildSection.
  destruct (ps_type cs); (split; [reflexivity|split; [reflexivity|]]);
    unfold rendered;
    cbn [convertSection convertRules convertExamples convertInstructions
         convertContext lift ret snd app];
    apply truthy_join; norm_lits; reflexivity.
Qed.

Lemma metadataSection_rendered metadata description :
  wellShaped (metadataSection metadata description) = true
  /\ skippedKind (metadataSection metadata description) = false
  /\ truthy (rendered (metadataSection metadata description)) = true.
Proof.
  split; [reflexivity|split; [reflexivity|]].
  unfold rendered, metadataSection.
  cbn [convertSection convertMetadata lift ret snd md_title md_icon
       md_description truthy_opt].
  destruct (truthy description); apply truthy_join; norm_lits; reflexivity.
Qed.

Lemma filter_all {A} (p : A -> bool) l :
  Forall (fun a => p a = true) l -> filter p l = l.
Proof.
  induction 1 as [|a l Ha _ IH]; [reflexivity|].
  cbn [filter]. rewrite Ha, IH. reflexivity.
Qed.

Variable yaml_load : jsstring -> option Frontmatter.
Variable typeErrorMessage : FaultSite -> jsstring.

(** X24.  Whatever the text, the package the agents.md parser returns is
    converted by [toCursor] without fault and without loss: no renderer
    raises, there is no warning, the conversion is not lossy, the score is
    100, and every section of the package, the metadata section included,
    has its block in the output. *)
Theorem parsed_document_converts_without_loss :
  forall content metadata cursorConfig,
    exists pkg,
      fromAgentsMd yaml_load content metadata = inr pkg
      /\ forallb wellShaped (cc_sections (pkg_content pkg)) = true
      /\ res_warnings (toCursor typeErrorMessage pkg cursorConfig) = None
      /\ res_lossyConversion (toCursor typeErrorMessage pkg cursorConfig)
         = false
      /\ res_qualityScore (toCursor typeErrorMessage pkg cursorConfig)
         = 100%Z
      /\ keptSections (cc_sections (pkg_content pkg))
         = cc_sections (pkg_content pkg).
Proof.
  intros content metadata cursorConfig.
  destruct (fromAgentsMd_ok yaml_load content metadata)
    as (pkg & secs & E & B & S & _).
  exists pkg. split; [exact E|].
  assert (A : Forall (fun s => wellShaped s = true /\ skippedKind s = false
                               /\ truthy (rendered s) = true)
                     (cc_sections (pkg_content pkg))).
  { rewrite S. constructor; [apply metadataSection_rendered|].
    apply Forall_forall. intros s Hs. apply isBuilt_rendered.
    rewrite Forall_forall in B. auto. }
  assert (W : forallb wellShaped (cc_sections (pkg_content pkg)) = true).
  { apply forallb_forall. rewrite Forall_forall in A.
    intros s Hs. apply (A s Hs). }
  assert (N : flat_map sectionWarnings (cc_sections (pkg_content pkg)) = []).
  { clear E S W. induction A as [|s l (Ws & Ks & _) _ IH]; [reflexivity|].
    cbn [flat_map]. rewrite IH, (sectionWarnings_rendered s Ws Ks).
    reflexivity. }
  split; [exact W|].
  rewrite (toCursor_shaped typeErrorMessage pkg cursorConfig W).
  cbv zeta. cbn [res_warnings res_lossyConversion res_qualityScore].
  rewrite N. repeat split.
  unfold keptSections. apply filter_all.
  apply Forall_forall. rewrite Forall_forall in A.
  intros s Hs. apply (A s Hs).
Qed.

End ParseThenConvert.
